(** * Sliding-window protocol (fc/swp.py): packet codec, sender and receiver

    A shallow embedding of [fc/swp.py].  Python integers are [Z], byte
    strings are lists of [byte], exceptions are an explicit result type, and
    the objects a method mutates are threaded through as a state. *)

From Stdlib Require Import ZArith Lia.
From Stdlib Require Import Strings.Byte.
From stdpp Require Import gmap list.

Local Open Scope Z_scope.

(** ** Python values shared by the three classes *)

Abbreviation bytes := (list byte).

Global Instance byte_eq_decision : EqDecision byte := Byte.byte_eq_dec.

(** The exceptions the code can raise: [struct.error] (pack, unpack),
    [ValueError] (the [SWPType] constructor), [TypeError] (slicing [None])
    and [KeyError] (a missing dictionary key). *)
Inductive exn : Set :=
  | StructError
  | ValueError
  | TypeError
  | KeyError.

Inductive result (A : Type) : Type :=
  | Ok (a : A)
  | Raise (e : exn).
Arguments Ok {A} a.
Arguments Raise {A} e.

Definition is_Raise {A} (r : result A) : Prop :=
  match r with Raise _ => True | Ok _ => False end.

(** ** The [struct] format ['!BI']: one unsigned byte, then an unsigned
    32-bit integer in network (big-endian) byte order, no padding. *)
Module Struct.

Definition Z_of_byte (b : byte) : Z := Z.of_N (Byte.to_N b).

Definition byte_of_Z (z : Z) : byte :=
  default x00 (Byte.of_N (Z.to_N (Z.land z 255))).

(** [struct.calcsize('!BI')] *)
Definition calcsize : nat := 5.

(** [struct.pack('!BI', b, i)]: raises [struct.error] when an argument
    is out of the range of its format character. *)
Definition pack (b i : Z) : result bytes :=
  if (0 <=? b) && (b <=? 255) && (0 <=? i) && (i <=? 4294967295) then
    Ok [ byte_of_Z b;
         byte_of_Z (Z.shiftr i 24); byte_of_Z (Z.shiftr i 16);
         byte_of_Z (Z.shiftr i 8); byte_of_Z i ]
  else Raise StructError.

(** Four bytes read as a big-endian unsigned integer. *)
Definition be32_of_bytes (x3 x2 x1 x0 : Z) : Z :=
  Z.lor (Z.shiftl x3 24) (Z.lor (Z.shiftl x2 16) (Z.lor (Z.shiftl x1 8) x0)).

(** [struct.unpack('!BI', raw)]: raises [struct.error] unless the buffer
    has exactly [calcsize] bytes. *)
Definition unpack (raw : bytes) : result (Z * Z) :=
  match raw with
  | [b0; b1; b2; b3; b4] =>
      Ok (Z_of_byte b0,
          be32_of_bytes (Z_of_byte b1) (Z_of_byte b2) (Z_of_byte b3) (Z_of_byte b4))
  | _ => Raise StructError
  end.

End Struct.

(** ** [class SWPType(enum.IntEnum)] *)
Inductive SWPType : Set :=
  | DATA
  | ACK.

Module SWPType.

(** [DATA = ord('D')], [ACK = ord('A')] *)
Definition value (t : SWPType) : Z :=
  match t with DATA => 68 | ACK => 65 end.

(** The enum constructor [SWPType(v)]: [ValueError] on any other value. *)
Definition of_value (v : Z) : result SWPType :=
  if v =? 68 then Ok DATA
  else if v =? 65 then Ok ACK
  else Raise ValueError.

End SWPType.

Global Instance SWPType_eq_dec : EqDecision SWPType.
Proof. solve_decision. Defined.

(** ** [class SWPPacket] *)
Module SWPPacket.

Record t : Type := mk { _type : SWPType; _seq_num : Z; _data : bytes }.

Definition _HEADER_SIZE : nat := Struct.calcsize.
Definition MAX_DATA_SIZE : nat := 1400.

(** [to_bytes]: the packed header followed by the payload.  No check of
    the payload length is made. *)
Definition to_bytes (p : t) : result bytes :=
  match Struct.pack (SWPType.value (_type p)) (_seq_num p) with
  | Ok header => Ok (header ++ _data p)
  | Raise e => Raise e
  end.

(** [from_bytes]: unpack [raw[:5]], convert the tag, keep [raw[5:]]. *)
Definition from_bytes (raw : bytes) : result t :=
  match Struct.unpack (take _HEADER_SIZE raw) with
  | Raise e => Raise e
  | Ok header =>
      match SWPType.of_value (fst header) with
      | Raise e => Raise e
      | Ok type => Ok (mk type (snd header) (drop _HEADER_SIZE raw))
      end
  end.

End SWPPacket.

(** ** State with exceptions

    A method body is a function from the state of the objects it touches to
    the state it leaves behind and either a value or the exception raised.
    A raised exception keeps the mutations made before it, as in Python. *)
Definition M (S A : Type) : Type := S -> S * result A.

Definition ret {S A} (a : A) : M S A := fun s => (s, Ok a).
Definition raise {S A} (e : exn) : M S A := fun s => (s, Raise e).
Definition bind {S A B} (m : M S A) (k : A -> M S B) : M S B :=
  fun s => match m s with
           | (s', Ok a) => k a s'
           | (s', Raise e) => (s', Raise e)
           end.
Definition get_state {S} : M S S := fun s => (s, Ok s).
Definition modify {S} (f : S -> S) : M S unit := fun s => (f s, Ok tt).
Definition lift {S A} (r : result A) : M S A := fun s => (s, r).
Definition lift_key {S A} (o : option A) : M S A :=
  match o with Some a => ret a | None => raise KeyError end.

Notation "'let!' x ':=' m 'in' k" := (bind m (fun x => k))
  (at level 10, x pattern, m at level 100, k at level 200).
Notation "m '>>' k" := (bind m (fun _ => k))
  (at level 100, k at level 200, right associativity).

(** [for x in l: body(x)] *)
Fixpoint for_each {S A} (l : list A) (body : A -> M S unit) : M S unit :=
  match l with
  | [] => ret tt
  | x :: l' => body x >> for_each l' body
  end.

Definition state_of {S A} (r : S * result A) : S := fst r.
Definition outcome {S A} (r : S * result A) : result A := snd r.

(** ** Python [dict] with integer keys: insertion-ordered, keys unique *)
Module PyDict.
Section dict.
Context {V : Type}.

Definition t : Type := list (Z * V).

Definition keys (d : t) : list Z := map fst d.
Definition len (d : t) : nat := length d.

(** [d[k]] as a read; [None] stands for [KeyError]. *)
Fixpoint get (d : t) (k : Z) : option V :=
  match d with
  | [] => None
  | (k', v) :: d' => if decide (k = k') then Some v else get d' k
  end.

(** [k in d] *)
Definition contains (d : t) (k : Z) : bool := bool_decide (is_Some (get d k)).

(** [d[k] = v]: replaces the value in place, or appends a new key. *)
Fixpoint set (d : t) (k : Z) (v : V) : t :=
  match d with
  | [] => [(k, v)]
  | (k', v') :: d' =>
      if decide (k = k') then (k, v) :: d' else (k', v') :: set d' k v
  end.

(** [del d[k]]; [None] stands for [KeyError]. *)
Fixpoint del (d : t) (k : Z) : option t :=
  match d with
  | [] => None
  | (k', v') :: d' =>
      if decide (k = k') then Some d'
      else match del d' k with
           | Some d'' => Some ((k', v') :: d'')
           | None => None
           end
  end.
End dict.
Arguments t V : clear implicits.
End PyDict.

(** ** [threading.Timer]

    Every timer of the sender is created as
    [Timer(_TIMEOUT, self._retransmit, [seq_num])] and started at once, so
    an object is its argument and its [finished] event.  [cancel()] sets
    the event, and so does the end of [run()]; a timer whose event is not
    set is live and will call [_retransmit(seq_num)]. *)
Record Timer : Type := mkTimer { timer_arg : Z; finished : bool }.

Definition timer_cancel (T : Timer) : Timer := mkTimer (timer_arg T) true.

(** ** [class SWPSender] *)
Module SWPSender.

Definition _SEND_WINDOW_SIZE : nat := 5.

(** The fields set by [__init__], the [Timer] objects allocated so far
    (a timer is referred to by its index) and the datagrams handed to
    [self._llp_endpoint.send], oldest first. *)
Record t : Type := mk {
  _next_seq_num : Z;
  _send_buffer : PyDict.t SWPPacket.t;
  _timers : PyDict.t nat;
  timer_objs : list Timer;
  llp_sent : list bytes
}.

Definition init : t := mk 0 [] [] [] [].

Definition set_next_seq_num (n : Z) (s : t) : t :=
  mk n (_send_buffer s) (_timers s) (timer_objs s) (llp_sent s).
Definition set_send_buffer (b : PyDict.t SWPPacket.t) (s : t) : t :=
  mk (_next_seq_num s) b (_timers s) (timer_objs s) (llp_sent s).
Definition set_timers (m : PyDict.t nat) (s : t) : t :=
  mk (_next_seq_num s) (_send_buffer s) m (timer_objs s) (llp_sent s).
Definition set_timer_objs (h : list Timer) (s : t) : t :=
  mk (_next_seq_num s) (_send_buffer s) (_timers s) h (llp_sent s).

(** [self._llp_endpoint.send(raw)] *)
Definition llp_send (raw : bytes) : M t unit :=
  modify (fun s => mk (_next_seq_num s) (_send_buffer s) (_timers s)
                      (timer_objs s) (llp_sent s ++ [raw])).

(** [timer = Timer(_TIMEOUT, self._retransmit, [seq_num]); timer.start()] *)
Definition new_timer (seq_num : Z) : M t nat :=
  fun s => (set_timer_objs (timer_objs s ++ [mkTimer seq_num false]) s,
            Ok (length (timer_objs s))).

(** [timer.cancel()] *)
Definition cancel (tid : nat) : M t unit :=
  modify (fun s => set_timer_objs (alter timer_cancel tid (timer_objs s)) s).

Definition _send (data : bytes) : M t unit :=
  let! s := get_state in
  if decide (_SEND_WINDOW_SIZE <= PyDict.len (_send_buffer s))%nat then
    ret tt
  else
    let seq_num := _next_seq_num s in
    modify (set_next_seq_num (seq_num + 1)) >>
    let packet := SWPPacket.mk DATA seq_num data in
    modify (fun s => set_send_buffer (PyDict.set (_send_buffer s) seq_num packet) s) >>
    let! raw := lift (SWPPacket.to_bytes packet) in
    llp_send raw >>
    let! timer := new_timer seq_num in
    modify (fun s => set_timers (PyDict.set (_timers s) seq_num timer) s).

(** [range(0, n, step)] for a positive [step] *)
Definition range_step (n step : nat) : list nat :=
  map (fun k => (k * step)%nat) (seq 0 ((n + step - 1) / step)).

Definition send (data : bytes) : M t unit :=
  for_each (range_step (length data) SWPPacket.MAX_DATA_SIZE)
    (fun i => _send (take SWPPacket.MAX_DATA_SIZE (drop i data))).

Definition _retransmit (seq_num : Z) : M t unit :=
  let! s := get_state in
  if PyDict.contains (_send_buffer s) seq_num then
    let! packet := lift_key (PyDict.get (_send_buffer s) seq_num) in
    let! raw := lift (SWPPacket.to_bytes packet) in
    llp_send raw >>
    let! old := lift_key (PyDict.get (_timers s) seq_num) in
    cancel old >>
    let! new_timer := new_timer seq_num in
    modify (fun s => set_timers (PyDict.set (_timers s) seq_num new_timer) s)
  else ret tt.

(** [Timer.run] once the interval has elapsed: call the function unless
    the timer was cancelled, then set the event. *)
Definition timer_run (tid : nat) : M t unit :=
  let! s := get_state in
  match timer_objs s !! tid with
  | None => ret tt
  | Some T =>
      (if finished T then ret tt else _retransmit (timer_arg T)) >>
      cancel tid
  end.

(** The body of the [for] statement of [_recv] for one key of the
    snapshot [list(self._send_buffer.keys())]. *)
Definition ack_one (ack_seq_num seq_num : Z) : M t unit :=
  if decide (seq_num <= ack_seq_num) then
    let! s := get_state in
    let! timer := lift_key (PyDict.get (_timers s) seq_num) in
    cancel timer >>
    let! timers' := lift_key (PyDict.del (_timers s) seq_num) in
    modify (set_timers timers') >>
    let! s := get_state in
    let! buffer' := lift_key (PyDict.del (_send_buffer s) seq_num) in
    modify (set_send_buffer buffer')
  else ret tt.

Definition process_ack (ack_seq_num : Z) : M t unit :=
  let! s := get_state in
  for_each (PyDict.keys (_send_buffer s)) (ack_one ack_seq_num).

(** One turn of the [while True] of [_recv], for the value [raw] that
    [self._llp_endpoint.recv()] returned ([None] when no datagram). *)
Definition _recv_iteration (raw : option bytes) : M t unit :=
  match raw with
  | None => ret tt
  | Some raw =>
      let! packet := lift (SWPPacket.from_bytes raw) in
      let! packet := lift (SWPPacket.from_bytes raw) in
      if decide (SWPPacket._type packet = ACK) then
        process_ack (SWPPacket._seq_num packet)
      else ret tt
  end.

(** The receive thread over the successive results of the transport's
    [recv()]: [Ok tt] while it is still looping, [Raise e] once an
    exception has ended it. *)
Definition _recv (inputs : list (option bytes)) : M t unit :=
  for_each inputs _recv_iteration.

End SWPSender.

(** ** [class SWPReceiver] *)
Module SWPReceiver.

Definition _RECV_WINDOW_SIZE : Z := 5.

(** The fields set by [__init__] ([_ready_data] is the queue, oldest
    first) and the datagrams handed to [self._llp_endpoint.send]. *)
Record t : Type := mk {
  _expected_seq_num : Z;
  _buffer : gmap Z bytes;
  _ready_data : list bytes;
  llp_sent : list bytes
}.

Definition init : t := mk 0 ∅ [] [].

(** [recv]: [self._ready_data.get()]; [None] when the call would block. *)
Definition recv (s : t) : option (bytes * t) :=
  match _ready_data s with
  | [] => None
  | d :: q => Some (d, mk (_expected_seq_num s) (_buffer s) q (llp_sent s))
  end.

Definition _send_ack (seq_num : Z) : M t unit :=
  let ack_packet := SWPPacket.mk ACK seq_num [] in
  let! raw := lift (SWPPacket.to_bytes ack_packet) in
  modify (fun s => mk (_expected_seq_num s) (_buffer s) (_ready_data s)
                      (llp_sent s ++ [raw])).

(** One turn of the [while] of [_process_buffer] when its test holds. *)
Definition deliver (data : bytes) (s : t) : t :=
  mk (_expected_seq_num s + 1) (delete (_expected_seq_num s) (_buffer s))
     (_ready_data s ++ [data]) (llp_sent s).

Fixpoint process_buffer_loop (fuel : nat) (s : t) : t :=
  match fuel with
  | O => s
  | S fuel' =>
      match _buffer s !! _expected_seq_num s with
      | Some data => process_buffer_loop fuel' (deliver data s)
      | None => s
      end
  end.

(** Each turn removes a key, so the loop makes at most [size] turns. *)
Definition _process_buffer : M t unit :=
  modify (fun s => process_buffer_loop (size (_buffer s)) s).

Definition in_window (s : t) (seq_num : Z) : bool :=
  (_expected_seq_num s <=? seq_num)
  && (seq_num <? _expected_seq_num s + _RECV_WINDOW_SIZE).

(** One turn of the [while True] of [_recv]; the result of the
    transport's [recv()] is passed to [from_bytes] unchecked, and slicing
    [None] raises [TypeError]. *)
Definition _recv_iteration (raw : option bytes) : M t unit :=
  let! packet :=
    match raw with
    | None => raise TypeError
    | Some raw => lift (SWPPacket.from_bytes raw)
    end in
  if decide (SWPPacket._type packet = DATA) then
    let seq_num := SWPPacket._seq_num packet in
    let! s := get_state in
    if in_window s seq_num then
      modify (fun s => mk (_expected_seq_num s)
                          (<[seq_num := SWPPacket._data packet]> (_buffer s))
                          (_ready_data s) (llp_sent s)) >>
      _send_ack seq_num >>
      _process_buffer
    else ret tt
  else ret tt.

Definition _recv (inputs : list (option bytes)) : M t unit :=
  for_each inputs _recv_iteration.

End SWPReceiver.

(** ** Predicates used in the statements *)

(** What [_process_buffer] leaves when it starts from [s] and delivers the
    payloads [ds]. *)
Definition delivered_run (s : SWPReceiver.t) (ds : list bytes) (s' : SWPReceiver.t) : Prop :=
  let e := SWPReceiver._expected_seq_num s in
  let e' := SWPReceiver._expected_seq_num s' in
  (forall (i : nat) d, ds !! i = Some d ->
      SWPReceiver._buffer s !! (e + Z.of_nat i) = Some d)
  /\ SWPReceiver._buffer s !! (e + Z.of_nat (length ds)) = None
  /\ e' = e + Z.of_nat (length ds)
  /\ SWPReceiver._ready_data s' = SWPReceiver._ready_data s ++ ds
  /\ (forall k, SWPReceiver._buffer s' !! k =
        if decide (e <= k < e') then None else SWPReceiver._buffer s !! k)
  /\ SWPReceiver.llp_sent s' = SWPReceiver.llp_sent s.

(** The accepting branch of the receiver: the payload is stored under its
    sequence number, the acknowledgement [ack] is sent, the buffer is
    reassembled. *)
Definition accepted (r : SWPReceiver.t) (s : Z) (d : bytes) (r' : SWPReceiver.t) : Prop :=
  exists ack,
    SWPPacket.to_bytes (SWPPacket.mk ACK s []) = Ok ack
    /\ r' = state_of (SWPReceiver._process_buffer
                        (SWPReceiver.mk (SWPReceiver._expected_seq_num r)
                           (<[s := d]> (SWPReceiver._buffer r))
                           (SWPReceiver._ready_data r)
                           (SWPReceiver.llp_sent r ++ [ack]))).

(** The operations on a sender: a per-segment submission, a retransmission,
    the expiry of a timer, and one turn of the receive loop. *)
Inductive sender_op : Type :=
  | OpSend (data : bytes)
  | OpRetransmit (seq_num : Z)
  | OpTimer (tid : nat)
  | OpRecv (raw : option bytes).

Definition run_op (o : sender_op) : M SWPSender.t unit :=
  match o with
  | OpSend data => SWPSender._send data
  | OpRetransmit seq_num => SWPSender._retransmit seq_num
  | OpTimer tid => SWPSender.timer_run tid
  | OpRecv raw => SWPSender._recv_iteration raw
  end.

(** A run of operations, in the order they take effect; an exception ends
    the operation that raised it, not the sender. *)
Definition run_ops (ops : list sender_op) (s : SWPSender.t) : SWPSender.t :=
  fold_left (fun s o => state_of (run_op o s)) ops s.

(** The timer object [tid] is live and will retransmit [k]. *)
Definition live_timer (s : SWPSender.t) (tid : nat) (k : Z) : Prop :=
  SWPSender.timer_objs s !! tid = Some (mkTimer k false).

(** The invariant of the outstanding window: at most [_SEND_WINDOW_SIZE]
    entries, the same keys in [_send_buffer] and [_timers], and for each
    key exactly one live timer, the one [_timers] holds. *)
Definition window_invariant (s : SWPSender.t) : Prop :=
  (PyDict.len (SWPSender._send_buffer s) <= SWPSender._SEND_WINDOW_SIZE)%nat
  /\ (forall k, k ∈ PyDict.keys (SWPSender._send_buffer s)
                <-> k ∈ PyDict.keys (SWPSender._timers s))
  /\ (forall k, k ∈ PyDict.keys (SWPSender._send_buffer s) ->
        exists tid, PyDict.get (SWPSender._timers s) k = Some tid
                    /\ forall tid', live_timer s tid' k <-> tid' = tid).

(** The invariant that the operations maintain; it adds to the above that
    the dictionaries have unique keys, that a packet is stored under its own
    sequence number, below the counter, that the counter is between 0 and
    2^32, and that no timer is live for an absent key. *)
Record sender_inv (s : SWPSender.t) : Prop := {
  inv_len : (PyDict.len (SWPSender._send_buffer s) <= SWPSender._SEND_WINDOW_SIZE)%nat;
  inv_nodup_buffer : NoDup (PyDict.keys (SWPSender._send_buffer s));
  inv_nodup_timers : NoDup (PyDict.keys (SWPSender._timers s));
  inv_keys : forall k, is_Some (PyDict.get (SWPSender._send_buffer s) k)
                       <-> is_Some (PyDict.get (SWPSender._timers s) k);
  inv_packet : forall k p, PyDict.get (SWPSender._send_buffer s) k = Some p ->
                 SWPPacket._seq_num p = k /\ 0 <= k < SWPSender._next_seq_num s;
  inv_next : 0 <= SWPSender._next_seq_num s <= 2 ^ 32;
  inv_timer_live : forall k tid, PyDict.get (SWPSender._timers s) k = Some tid ->
                     live_timer s tid k;
  inv_live_timer : forall tid T, SWPSender.timer_objs s !! tid = Some T ->
                     finished T = false ->
                     PyDict.get (SWPSender._timers s) (timer_arg T) = Some tid
}.

(** The sender after three submissions: 0, 1 and 2 are outstanding. *)
Definition sender3 : SWPSender.t :=
  state_of (for_each [[x61]; [x62]; [x63]] SWPSender._send SWPSender.init).

(** The sender after five submissions: the window is full. *)
Definition sender5 : SWPSender.t :=
  state_of (for_each [[x61]; [x62]; [x63]; [x64]; [x65]] SWPSender._send
              SWPSender.init).

(** ** Further predicates *)

(** The slices [data[i:i+MAX_DATA_SIZE]] that [send] submits, in order. *)
Definition chunks (data : bytes) : list bytes :=
  map (fun i => take SWPPacket.MAX_DATA_SIZE (drop i data))
      (SWPSender.range_step (length data) SWPPacket.MAX_DATA_SIZE).

(** The DATA packets for the payloads [datas], numbered from [n]. *)
Fixpoint numbered (n : Z) (datas : list bytes) : list SWPPacket.t :=
  match datas with
  | [] => []
  | d :: datas' => SWPPacket.mk DATA n d :: numbered (n + 1) datas'
  end.

(** [raws] are the encodings of the packets [ps], one for one. *)
Definition encodings (ps : list SWPPacket.t) (raws : list bytes) : Prop :=
  Forall2 (fun p raw => SWPPacket.to_bytes p = Ok raw) ps raws.

(** What the sender has put on the wire: every datagram handed to the
    transport decodes to a DATA packet numbered below the counter, and every
    outstanding packet is a DATA packet whose encoding was handed over. *)
Definition sender_wire_inv (s : SWPSender.t) : Prop :=
  (forall raw, raw ∈ SWPSender.llp_sent s ->
     exists p, SWPPacket.from_bytes raw = Ok p
               /\ SWPPacket._type p = DATA
               /\ 0 <= SWPPacket._seq_num p < SWPSender._next_seq_num s)
  /\ (forall k p, PyDict.get (SWPSender._send_buffer s) k = Some p ->
        SWPPacket._type p = DATA
        /\ exists raw, SWPPacket.to_bytes p = Ok raw /\ raw ∈ SWPSender.llp_sent s).

(** A DATA datagram with sequence number [i] and payload [d] is among the
    results of the transport's [recv()]. *)
Definition arrived (inputs : list (option bytes)) (i : Z) (d : bytes) : Prop :=
  exists raw, Some raw ∈ inputs /\ SWPPacket.from_bytes raw = Ok (SWPPacket.mk DATA i d).

(** The state of a receiver that has read [inputs]: the reorder buffer holds
    only keys strictly between the cursor and the end of the window; the
    cursor counts the payloads delivered; the payload delivered at position
    [i], and the payload buffered under [k], arrived under that sequence
    number; every datagram sent is an ACK with an empty payload for a
    sequence number that arrived and is by now delivered or buffered. *)
Record receiver_inv (inputs : list (option bytes)) (r : SWPReceiver.t) : Prop := {
  rinv_keys : forall k, is_Some (SWPReceiver._buffer r !! k) ->
                SWPReceiver._expected_seq_num r < k
                < SWPReceiver._expected_seq_num r + SWPReceiver._RECV_WINDOW_SIZE;
  rinv_count : Z.of_nat (length (SWPReceiver._ready_data r))
               = SWPReceiver._expected_seq_num r;
  rinv_ready : forall (i : nat) d, SWPReceiver._ready_data r !! i = Some d ->
                 arrived inputs (Z.of_nat i) d;
  rinv_buffer : forall k d, SWPReceiver._buffer r !! k = Some d -> arrived inputs k d;
  rinv_acks : forall raw, raw ∈ SWPReceiver.llp_sent r ->
                exists s, SWPPacket.from_bytes raw = Ok (SWPPacket.mk ACK s [])
                          /\ (exists d, arrived inputs s d)
                          /\ (0 <= s < SWPReceiver._expected_seq_num r
                              \/ is_Some (SWPReceiver._buffer r !! s))
}.

(** The ACK packets that answer the packets [ps], one for one. *)
Definition acks_of (ps : list SWPPacket.t) : list SWPPacket.t :=
  map (fun p => SWPPacket.mk ACK (SWPPacket._seq_num p) []) ps.

(** The segment numbered [s] has been delivered or is in the reorder buffer. *)
Definition held (r : SWPReceiver.t) (s : Z) : Prop :=
  0 <= s < SWPReceiver._expected_seq_num r \/ is_Some (SWPReceiver._buffer r !! s).

(** A result of the transport's [recv()] that is a decodable datagram and,
    if a DATA segment, is numbered below the end of the first window. *)
Definition in_first_window (x : option bytes) : Prop :=
  exists raw p, x = Some raw /\ SWPPacket.from_bytes raw = Ok p
                /\ (SWPPacket._type p = DATA ->
                    SWPPacket._seq_num p < SWPReceiver._RECV_WINDOW_SIZE).

(** * Properties *)

(** ** Concrete runs *)

Example to_bytes_ack_258 :
  SWPPacket.to_bytes (SWPPacket.mk ACK 258 []) = Ok [x41; x00; x00; x01; x02].
Proof. reflexivity. Qed.

Example from_bytes_data_258 :
  SWPPacket.from_bytes [x44; x00; x00; x01; x02; x68; x69]
  = Ok (SWPPacket.mk DATA 258 [x68; x69]).
Proof. reflexivity. Qed.

Example receiver_reorder :
  let r := SWPReceiver._recv
             [Some [x44; x00; x00; x00; x01; x62];
              Some [x44; x00; x00; x00; x00; x61]] SWPReceiver.init in
  outcome r = Ok tt
  /\ SWPReceiver._ready_data (state_of r) = [[x61]; [x62]]
  /\ SWPReceiver.llp_sent (state_of r)
     = [[x41; x00; x00; x00; x01]; [x41; x00; x00; x00; x00]].
Proof. vm_compute. auto. Qed.

Example sender_six :
  let r := (for_each [[x61]; [x62]; [x63]; [x64]; [x65]; [x66]] SWPSender._send
            >> SWPSender._recv_iteration (Some [x41; x00; x00; x00; x02]))
           SWPSender.init in
  outcome r = Ok tt
  /\ PyDict.keys (SWPSender._send_buffer (state_of r)) = [3; 4]
  /\ PyDict.keys (SWPSender._timers (state_of r)) = [3; 4]
  /\ length (SWPSender.llp_sent (state_of r)) = 5%nat.
Proof. vm_compute. auto. Qed.

Example send_splits_in_chunks :
  let r := SWPSender.send (replicate 3000 x61) SWPSender.init in
  outcome r = Ok tt
  /\ map length (SWPSender.llp_sent (state_of r)) = [1405; 1405; 205]%nat
  /\ PyDict.keys (SWPSender._send_buffer (state_of r)) = [0; 1; 2].
Proof. vm_compute. auto. Qed.

(** [send] on six chunks transmits five of them. *)
Example send_more_than_window :
  let r := SWPSender.send (replicate (5 * 1400 + 1) x61) SWPSender.init in
  outcome r = Ok tt
  /\ map length (SWPSender.llp_sent (state_of r)) = [1405; 1405; 1405; 1405; 1405]%nat
  /\ SWPSender._next_seq_num (state_of r) = 5.
Proof. vm_compute. auto. Qed.

(** Past 2^32 submissions [to_bytes] raises in [_send], after the packet was
    stored and before its timer exists. *)
Example send_counter_past_u32 :
  SWPSender._send [x61] (SWPSender.mk (2 ^ 32) [] [] [] [])
  = (SWPSender.mk (2 ^ 32 + 1) [(2 ^ 32, SWPPacket.mk DATA (2 ^ 32) [x61])] [] [] [],
     Raise StructError).
Proof. reflexivity. Qed.

(** ** The codec *)

Section Codec.
Import Struct SWPPacket.

Lemma Z_of_byte_range b : 0 <= Z_of_byte b <= 255.
Proof. unfold Z_of_byte. pose proof (Byte.to_N_bounded b). lia. Qed.

Lemma Z_of_byte_inj b b' : Z_of_byte b = Z_of_byte b' -> b = b'.
Proof.
  unfold Z_of_byte. intros H%N2Z.inj.
  pose proof (Byte.of_to_N b) as Hb. rewrite H, Byte.of_to_N in Hb.
  congruence.
Qed.

Lemma Z_of_byte_of_Z z : Z_of_byte (byte_of_Z z) = Z.land z 255.
Proof.
  unfold Z_of_byte, byte_of_Z.
  assert (0 <= Z.land z 255 <= 255) as Hr.
  { change 255 with (Z.ones 8) at 1 2. rewrite Z.land_ones by lia.
    pose proof (Z.mod_pos_bound z (2 ^ 8)). change (Z.ones 8) with 255. lia. }
  destruct (Byte.of_N (Z.to_N (Z.land z 255))) as [b|] eqn:E.
  - apply Byte.to_of_N in E. simpl. rewrite E. lia.
  - apply Byte.of_N_None_iff in E. lia.
Qed.

Lemma byte_of_Z_of_byte b : byte_of_Z (Z_of_byte b) = b.
Proof.
  apply Z_of_byte_inj. rewrite Z_of_byte_of_Z.
  pose proof (Z_of_byte_range b).
  change 255 with (Z.ones 8). rewrite Z.land_ones by lia.
  apply Z.mod_small. lia.
Qed.

Lemma testbit_land_255 z n :
  0 <= n -> Z.testbit (Z.land z 255) n = Z.testbit z n && (n <? 8).
Proof.
  intros Hn. change 255 with (Z.ones 8).
  rewrite Z.land_spec, Z.testbit_ones_nonneg by lia. done.
Qed.

Lemma testbit_u32_high i n : 0 <= i < 2 ^ 32 -> 32 <= n -> Z.testbit i n = false.
Proof.
  intros Hi Hn. destruct (decide (i = 0)) as [->|Hne].
  - apply Z.bits_0.
  - apply Z.bits_above_log2; [lia|].
    assert (Z.log2 i < 32) by (apply Z.log2_lt_pow2; lia). lia.
Qed.

Lemma be32_split_combine i :
  0 <= i < 2 ^ 32 ->
  be32_of_bytes (Z.land (Z.shiftr i 24) 255) (Z.land (Z.shiftr i 16) 255)
                (Z.land (Z.shiftr i 8) 255) (Z.land i 255) = i.
Proof.
  intros Hi. unfold be32_of_bytes. apply Z.bits_inj'. intros n Hn.
  rewrite !Z.lor_spec, !Z.shiftl_spec by lia.
  destruct (Z_lt_dec n 8) as [H8|H8].
  { rewrite (Z.testbit_neg_r _ (n - 24)), (Z.testbit_neg_r _ (n - 16)),
      (Z.testbit_neg_r _ (n - 8)) by lia.
    rewrite testbit_land_255 by lia.
    replace (n <? 8) with true by (symmetry; apply Z.ltb_lt; lia).
    simpl. apply andb_true_r. }
  destruct (Z_lt_dec n 16) as [H16|H16].
  { rewrite (Z.testbit_neg_r _ (n - 24)), (Z.testbit_neg_r _ (n - 16)) by lia.
    rewrite !testbit_land_255, Z.shiftr_spec by lia.
    replace (n - 8 <? 8) with true by (symmetry; apply Z.ltb_lt; lia).
    replace (n <? 8) with false by (symmetry; apply Z.ltb_ge; lia).
    replace (n - 8 + 8) with n by lia.
    simpl. rewrite !andb_true_r, andb_false_r, orb_false_r. done. }
  destruct (Z_lt_dec n 24) as [H24|H24].
  { rewrite (Z.testbit_neg_r _ (n - 24)) by lia.
    rewrite !testbit_land_255, !Z.shiftr_spec by lia.
    replace (n - 16 <? 8) with true by (symmetry; apply Z.ltb_lt; lia).
    replace (n - 8 <? 8) with false by (symmetry; apply Z.ltb_ge; lia).
    replace (n <? 8) with false by (symmetry; apply Z.ltb_ge; lia).
    replace (n - 16 + 16) with n by lia.
    simpl. rewrite !andb_true_r, !andb_false_r, !orb_false_r. done. }
  rewrite !testbit_land_255, !Z.shiftr_spec by lia.
  replace (n - 16 <? 8) with false by (symmetry; apply Z.ltb_ge; lia).
  replace (n - 8 <? 8) with false by (symmetry; apply Z.ltb_ge; lia).
  replace (n <? 8) with false by (symmetry; apply Z.ltb_ge; lia).
  replace (n - 24 + 24) with n by lia.
  rewrite !andb_false_r, !orb_false_r.
  destruct (Z_lt_dec n 32) as [H32|H32].
  - replace (n - 24 <? 8) with true by (symmetry; apply Z.ltb_lt; lia).
    apply andb_true_r.
  - rewrite (testbit_u32_high i n) by lia. done.
Qed.

Lemma unpack_pack b i raw :
  pack b i = Ok raw -> unpack raw = Ok (b, i) /\ length raw = calcsize.
Proof.
  unfold pack. intros H.
  destruct ((0 <=? b) && (b <=? 255) && (0 <=? i) && (i <=? 4294967295)) eqn:E;
    [|discriminate].
  injection H as <-. split; [|done].
  apply andb_prop in E as [E Hi2]. apply andb_prop in E as [E Hi1].
  apply andb_prop in E as [Hb1 Hb2].
  apply Z.leb_le in Hb1, Hb2, Hi1, Hi2.
  unfold unpack. rewrite !Z_of_byte_of_Z. f_equal. f_equal.
  - change 255 with (Z.ones 8). rewrite Z.land_ones by lia.
    apply Z.mod_small. lia.
  - apply be32_split_combine. lia.
Qed.

Lemma pack_Ok b i :
  0 <= b <= 255 -> 0 <= i < 2 ^ 32 -> exists raw, pack b i = Ok raw.
Proof.
  intros Hb Hi. unfold pack.
  replace ((0 <=? b) && (b <=? 255) && (0 <=? i) && (i <=? 4294967295))
    with true; [eauto|].
  symmetry. rewrite !andb_true_iff, !Z.leb_le. lia.
Qed.

Lemma of_value_value ty : SWPType.of_value (SWPType.value ty) = Ok ty.
Proof. by destruct ty. Qed.

Lemma of_value_Ok v ty : SWPType.of_value v = Ok ty -> v = SWPType.value ty.
Proof.
  unfold SWPType.of_value. destruct (Z.eqb_spec v 68); [by intros [= <-]|].
  destruct (Z.eqb_spec v 65); [by intros [= <-]|]. done.
Qed.

(** Packing what was unpacked gives the buffer back. *)
Lemma pack_unpack raw b i : unpack raw = Ok (b, i) -> pack b i = Ok raw.
Proof.
  unfold unpack.
  destruct raw as [|b0 [|b1 [|b2 [|b3 [|b4 [|? ?]]]]]]; try discriminate.
  intros [= <- <-].
  pose proof (Z_of_byte_range b0). pose proof (Z_of_byte_range b1).
  pose proof (Z_of_byte_range b2). pose proof (Z_of_byte_range b3).
  pose proof (Z_of_byte_range b4).
  unfold be32_of_bytes. set (i := Z.lor _ _).
  assert (forall n, 0 <= n -> Z.testbit i n =
            if n <? 8 then Z.testbit (Z_of_byte b4) n
            else if n <? 16 then Z.testbit (Z_of_byte b3) (n - 8)
            else if n <? 24 then Z.testbit (Z_of_byte b2) (n - 16)
            else Z.testbit (Z_of_byte b1) (n - 24)) as Hbits.
  { intros n Hn. subst i. rewrite !Z.lor_spec, !Z.shiftl_spec by lia.
    assert (forall b k, 8 <= k -> Z.testbit (Z_of_byte b) k = false) as Hhigh.
    { intros b k Hk. pose proof (Z_of_byte_range b).
      destruct (decide (Z_of_byte b = 0)) as [->|?]; [apply Z.bits_0|].
      apply Z.bits_above_log2; [lia|].
      assert (Z.log2 (Z_of_byte b) < 8) by (apply Z.log2_lt_pow2; lia). lia. }
    destruct (Z.ltb_spec n 8).
    { rewrite !(Z.testbit_neg_r _ (n - _)) by lia. done. }
    destruct (Z.ltb_spec n 16).
    { rewrite (Z.testbit_neg_r _ (n - 24)), (Z.testbit_neg_r _ (n - 16)) by lia.
      rewrite (Hhigh b4 n) by lia. simpl. apply orb_false_r. }
    destruct (Z.ltb_spec n 24).
    { rewrite (Z.testbit_neg_r _ (n - 24)) by lia.
      rewrite (Hhigh b4 n), (Hhigh b3 (n - 8)) by lia.
      simpl. by rewrite !orb_false_r. }
    rewrite (Hhigh b4 n), (Hhigh b3 (n - 8)), (Hhigh b2 (n - 16)) by lia.
    by rewrite !orb_false_r. }
  assert (0 <= i) as Hi0.
  { apply Z.bits_iff_nonneg_ex. exists 32. intros m Hm.
    rewrite Hbits by lia.
    replace (m <? 8) with false by (symmetry; apply Z.ltb_ge; lia).
    replace (m <? 16) with false by (symmetry; apply Z.ltb_ge; lia).
    replace (m <? 24) with false by (symmetry; apply Z.ltb_ge; lia).
    destruct (decide (Z_of_byte b1 = 0)) as [->|?]; [apply Z.bits_0|].
    apply Z.bits_above_log2; [lia|].
    assert (Z.log2 (Z_of_byte b1) < 8) by (apply Z.log2_lt_pow2; lia). lia. }
  assert (forall k b, 0 <= k ->
            (forall n, 0 <= n -> Z.testbit (Z.land (Z.shiftr i k) 255) n
                                 = Z.testbit (Z_of_byte b) n) ->
            byte_of_Z (Z.shiftr i k) = b) as Hbyte.
  { intros k b Hk Hb. apply Z_of_byte_inj. rewrite Z_of_byte_of_Z.
    by apply Z.bits_inj'. }
  assert (forall b n, 0 <= n -> Z.testbit (Z_of_byte b) n && (n <? 8)
                                = Z.testbit (Z_of_byte b) n) as Hlow.
  { intros b n Hn. destruct (Z.ltb_spec n 8); [apply andb_true_r|].
    rewrite andb_false_r. symmetry.
    pose proof (Z_of_byte_range b).
    destruct (decide (Z_of_byte b = 0)) as [->|?]; [apply Z.bits_0|].
    apply Z.bits_above_log2; [lia|].
    assert (Z.log2 (Z_of_byte b) < 8) by (apply Z.log2_lt_pow2; lia). lia. }
  assert (i < 2 ^ 32) as Hi1.
  { destruct (Z_lt_dec i (2 ^ 32)) as [|Hge]; [done|exfalso].
    assert (Z.testbit i (Z.log2 i) = true) as Ht by (apply Z.bit_log2; lia).
    assert (32 <= Z.log2 i) by (apply Z.log2_le_pow2; lia).
    rewrite Hbits in Ht by lia.
    replace (Z.log2 i <? 8) with false in Ht by (symmetry; apply Z.ltb_ge; lia).
    replace (Z.log2 i <? 16) with false in Ht by (symmetry; apply Z.ltb_ge; lia).
    replace (Z.log2 i <? 24) with false in Ht by (symmetry; apply Z.ltb_ge; lia).
    rewrite <- Hlow in Ht by lia.
    replace (Z.log2 i - 24 <? 8) with false in Ht by (symmetry; apply Z.ltb_ge; lia).
    by rewrite andb_false_r in Ht. }
  unfold pack.
  replace ((0 <=? Z_of_byte b0) && (Z_of_byte b0 <=? 255) && (0 <=? i)
           && (i <=? 4294967295)) with true
    by (symmetry; rewrite !andb_true_iff, !Z.leb_le; lia).
  rewrite byte_of_Z_of_byte.
  rewrite <- (Z.shiftr_0_r i) at 4.
  rewrite (Hbyte 24 b1), (Hbyte 16 b2), (Hbyte 8 b3), (Hbyte 0 b4); try lia; try done.
  all: intros n Hn; rewrite testbit_land_255, Z.shiftr_spec, Hbits by lia.
  - rewrite Z.add_0_r. destruct (Z.ltb_spec n 8); [apply andb_true_r|].
    rewrite andb_false_r. by rewrite <- Hlow, (proj2 (Z.ltb_ge n 8)), andb_false_r by lia.
  - destruct (Z.ltb_spec n 8).
    + replace (n + 8 <? 8) with false by (symmetry; apply Z.ltb_ge; lia).
      replace (n + 8 <? 16) with true by (symmetry; apply Z.ltb_lt; lia).
      replace (n + 8 - 8) with n by lia. apply andb_true_r.
    + rewrite andb_false_r. by rewrite <- Hlow, (proj2 (Z.ltb_ge n 8)), andb_false_r by lia.
  - destruct (Z.ltb_spec n 8).
    + replace (n + 16 <? 8) with false by (symmetry; apply Z.ltb_ge; lia).
      replace (n + 16 <? 16) with false by (symmetry; apply Z.ltb_ge; lia).
      replace (n + 16 <? 24) with true by (symmetry; apply Z.ltb_lt; lia).
      replace (n + 16 - 16) with n by lia. apply andb_true_r.
    + rewrite andb_false_r. by rewrite <- Hlow, (proj2 (Z.ltb_ge n 8)), andb_false_r by lia.
  - destruct (Z.ltb_spec n 8).
    + replace (n + 24 <? 8) with false by (symmetry; apply Z.ltb_ge; lia).
      replace (n + 24 <? 16) with false by (symmetry; apply Z.ltb_ge; lia).
      replace (n + 24 <? 24) with false by (symmetry; apply Z.ltb_ge; lia).
      replace (n + 24 - 24) with n by lia. apply andb_true_r.
    + rewrite andb_false_r. by rewrite <- Hlow, (proj2 (Z.ltb_ge n 8)), andb_false_r by lia.
Qed.

End Codec.

Lemma from_bytes_Ok_inv raw p :
  SWPPacket.from_bytes raw = Ok p ->
  Struct.pack (SWPType.value (SWPPacket._type p)) (SWPPacket._seq_num p)
  = Ok (take 5 raw)
  /\ SWPPacket._data p = drop 5 raw
  /\ (5 <= length raw)%nat.
Proof.
  unfold SWPPacket.from_bytes, SWPPacket._HEADER_SIZE, Struct.calcsize.
  destruct (Struct.unpack (take 5 raw)) as [[b i]|] eqn:Hu; [|discriminate].
  simpl. destruct (SWPType.of_value b) as [ty|] eqn:Hty; [|discriminate].
  intros [= <-]. simpl. apply of_value_Ok in Hty as ->.
  apply pack_unpack in Hu. split; [done|]. split; [done|].
  apply unpack_pack in Hu as [_ Hlen]. rewrite length_take in Hlen.
  unfold Struct.calcsize in Hlen. lia.
Qed.

Lemma from_bytes_short raw :
  (length raw < 5)%nat -> SWPPacket.from_bytes raw = Raise StructError.
Proof.
  intros Hlen. unfold SWPPacket.from_bytes, SWPPacket._HEADER_SIZE, Struct.calcsize.
  rewrite take_ge by lia.
  by destruct raw as [|b0 [|b1 [|b2 [|b3 [|b4 [|? ?]]]]]]; simpl in *; try lia.
Qed.

Lemma from_bytes_long raw b :
  (5 <= length raw)%nat -> raw !! 0%nat = Some b ->
  SWPPacket.from_bytes raw
  = match SWPType.of_value (Struct.Z_of_byte b) with
    | Ok ty =>
        Ok (SWPPacket.mk ty
              (Struct.be32_of_bytes
                 (Struct.Z_of_byte (default x00 (raw !! 1%nat)))
                 (Struct.Z_of_byte (default x00 (raw !! 2%nat)))
                 (Struct.Z_of_byte (default x00 (raw !! 3%nat)))
                 (Struct.Z_of_byte (default x00 (raw !! 4%nat))))
              (drop 5 raw))
    | Raise e => Raise e
    end.
Proof.
  intros Hlen Hb.
  destruct raw as [|b0 [|b1 [|b2 [|b3 [|b4 rest]]]]]; simpl in Hlen; try lia.
  injection Hb as ->. reflexivity.
Qed.

Lemma of_value_tag b :
  SWPType.of_value (Struct.Z_of_byte b)
  = if decide (b = x44) then Ok DATA
    else if decide (b = x41) then Ok ACK else Raise ValueError.
Proof. by destruct b. Qed.

(** C6 (codec round trip): for a kind in {DATA, ACK}, a sequence number that
    fits an unsigned 32-bit integer and a payload of at most 1400 bytes,
    [to_bytes] succeeds and [from_bytes] of its result is the same packet. *)
Theorem codec_round_trip (kind : SWPType) (seq : Z) (payload : bytes) :
  0 <= seq < 2 ^ 32 ->
  (length payload <= SWPPacket.MAX_DATA_SIZE)%nat ->
  exists raw,
    SWPPacket.to_bytes (SWPPacket.mk kind seq payload) = Ok raw
    /\ SWPPacket.from_bytes raw = Ok (SWPPacket.mk kind seq payload).
Proof.
  intros Hseq _.
  destruct (pack_Ok (SWPType.value kind) seq) as [header Hp]; [by destruct kind|done|].
  exists (header ++ payload). unfold SWPPacket.to_bytes. simpl. rewrite Hp.
  split; [done|].
  apply unpack_pack in Hp as [Hu Hlen].
  unfold SWPPacket.from_bytes, SWPPacket._HEADER_SIZE.
  rewrite take_app_length', drop_app_length' by done.
  rewrite Hu. simpl. by rewrite of_value_value.
Qed.

Lemma codec_round_trip_witness :
  exists raw,
    SWPPacket.to_bytes (SWPPacket.mk DATA 4294967295 [x68; x69]) = Ok raw
    /\ SWPPacket.from_bytes raw = Ok (SWPPacket.mk DATA 4294967295 [x68; x69]).
Proof.
  apply (codec_round_trip DATA 4294967295 [x68; x69]).
  - lia.
  - vm_compute. lia.
Defined.

(** C8 (decoding and its failures): [from_bytes] raises (it returns no
    packet) exactly when the input has fewer than 5 bytes or its first byte
    is neither 0x44 (DATA) nor 0x41 (ACK); when it returns a packet, the
    first 5 bytes are the packed header of its kind and sequence number and
    the payload is the rest of the input. *)
Theorem from_bytes_fails_iff (raw : bytes) :
  (is_Raise (SWPPacket.from_bytes raw) <->
     (length raw < 5)%nat
     \/ exists b, raw !! 0%nat = Some b /\ b <> x44 /\ b <> x41)
  /\ (forall p, SWPPacket.from_bytes raw = Ok p ->
        SWPPacket.to_bytes (SWPPacket.mk (SWPPacket._type p) (SWPPacket._seq_num p) [])
        = Ok (take 5 raw)
        /\ SWPPacket._data p = drop 5 raw).
Proof.
  split.
  - destruct (decide (length raw < 5)%nat) as [Hs|Hl].
    { rewrite from_bytes_short by done. simpl. tauto. }
    destruct (raw !! 0%nat) as [b|] eqn:Hb.
    2:{ apply lookup_ge_None in Hb. lia. }
    rewrite (from_bytes_long raw b) by (done || lia). rewrite of_value_tag.
    split.
    + intros HR. right. exists b. split; [done|].
      destruct (decide (b = x44)); [done|]. destruct (decide (b = x41)); done.
    + intros [?|(b' & [= <-] & H44 & H41)]; [lia|].
      destruct (decide (b = x44)); [done|]. destruct (decide (b = x41)); done.
  - intros p Hp. apply from_bytes_Ok_inv in Hp as (Hpack & Hdata & _).
    split; [|done]. unfold SWPPacket.to_bytes. simpl. rewrite Hpack.
    by rewrite app_nil_r.
Qed.

Lemma from_bytes_fails_iff_witness :
  (is_Raise (SWPPacket.from_bytes [x5a; x00; x00; x00; x01; x61]) <->
     (length [x5a; x00; x00; x00; x01; x61] < 5)%nat
     \/ exists b, [x5a; x00; x00; x00; x01; x61] !! 0%nat = Some b
                  /\ b <> x44 /\ b <> x41)
  /\ (forall p, SWPPacket.from_bytes [x5a; x00; x00; x00; x01; x61] = Ok p ->
        SWPPacket.to_bytes (SWPPacket.mk (SWPPacket._type p) (SWPPacket._seq_num p) [])
        = Ok (take 5 [x5a; x00; x00; x00; x01; x61])
        /\ SWPPacket._data p = drop 5 [x5a; x00; x00; x00; x01; x61]).
Proof. exact (from_bytes_fails_iff [x5a; x00; x00; x00; x01; x61]). Defined.

(** C10 (no upper bound on decoding): every input of at least 5 bytes whose
    first byte is 0x44 or 0x41 decodes, and the payload is the whole
    remainder after the 5-byte header, whatever its length. *)
Theorem from_bytes_unbounded_payload (raw : bytes) :
  (5 <= length raw)%nat ->
  raw !! 0%nat = Some x44 \/ raw !! 0%nat = Some x41 ->
  exists p,
    SWPPacket.from_bytes raw = Ok p
    /\ SWPPacket._data p = drop 5 raw
    /\ length (SWPPacket._data p) = (length raw - 5)%nat.
Proof.
  intros Hlen Htag.
  assert (exists b, raw !! 0%nat = Some b /\ (b = x44 \/ b = x41)) as (b & Hb & Hor)
    by (destruct Htag; eauto).
  rewrite (from_bytes_long raw b) by done. rewrite of_value_tag.
  destruct Hor as [-> | ->]; simpl; eexists; (split; [done|]); simpl;
    by rewrite length_drop.
Qed.

Lemma from_bytes_unbounded_payload_witness :
  exists p,
    SWPPacket.from_bytes ([x44; x00; x00; x00; x07] ++ replicate 1401 x61) = Ok p
    /\ SWPPacket._data p = drop 5 ([x44; x00; x00; x00; x07] ++ replicate 1401 x61)
    /\ length (SWPPacket._data p)
       = (length ([x44; x00; x00; x00; x07] ++ replicate 1401 x61) - 5)%nat.
Proof.
  apply (from_bytes_unbounded_payload ([x44; x00; x00; x00; x07] ++ replicate 1401 x61)).
  - vm_compute. lia.
  - left. reflexivity.
Defined.

(** ** The receiver *)

Section Receiver.
Import SWPReceiver.

Lemma process_buffer_loop_run fuel s :
  (size (_buffer s) <= fuel)%nat ->
  exists ds, delivered_run s ds (process_buffer_loop fuel s).
Proof.
  revert s. induction fuel as [|fuel IH]; intros s Hsize.
  - exists []. assert (_buffer s = ∅) as Hempty by (apply map_size_empty_iff; lia).
    unfold delivered_run. simpl. rewrite Hempty, Z.add_0_r.
    repeat split; try done.
    + by rewrite app_nil_r.
    + intros k. case_decide; [lia|done].
  - simpl. destruct (_buffer s !! _expected_seq_num s) as [d|] eqn:Hd.
    + destruct (IH (deliver d s)) as (ds & Hrun & Hnone & Hexp & Hready & Hbuf & Hsent).
      { simpl. pose proof (map_size_delete (_expected_seq_num s) (_buffer s)) as Hsz.
        rewrite Hd in Hsz. simpl in Hsz. rewrite Hsz.
        assert (size (_buffer s) <> 0)%nat.
        { intros H0%map_size_empty_iff. by rewrite H0 in Hd. }
        lia. }
      simpl in *. exists (d :: ds). unfold delivered_run. simpl.
      split; [|split; [|split; [|split; [|split]]]].
      * intros [|i] d'; simpl.
        -- intros [= <-]. by rewrite Z.add_0_r.
        -- intros Hi. apply Hrun in Hi. rewrite lookup_delete_ne in Hi by lia.
           rewrite <- Hi. f_equal. lia.
      * rewrite lookup_delete_ne in Hnone by lia. rewrite <- Hnone. f_equal. lia.
      * rewrite Hexp. lia.
      * rewrite Hready. by rewrite <- app_assoc.
      * intros k. rewrite Hbuf. rewrite Hexp.
        destruct (decide (k = _expected_seq_num s)) as [->|Hne].
        -- rewrite lookup_delete_eq. repeat case_decide; try done; lia.
        -- rewrite lookup_delete_ne by done. repeat case_decide; try done; lia.
      * done.
    + exists []. unfold delivered_run. simpl. rewrite Z.add_0_r.
      repeat split; try done.
      * by rewrite app_nil_r.
      * intros k. case_decide; [lia|done].
Qed.

Lemma process_buffer_loop_more fuel s :
  (size (_buffer s) <= fuel)%nat ->
  process_buffer_loop fuel s = process_buffer_loop (size (_buffer s)) s.
Proof.
  revert s. induction fuel as [|fuel IH]; intros s Hsize.
  - by replace (size (_buffer s)) with 0%nat by lia.
  - simpl. destruct (_buffer s !! _expected_seq_num s) as [d|] eqn:Hd.
    + pose proof (map_size_delete (_expected_seq_num s) (_buffer s)) as Hsz.
      rewrite Hd in Hsz. simpl in Hsz.
      assert (size (_buffer s) <> 0)%nat.
      { intros H0%map_size_empty_iff. by rewrite H0 in Hd. }
      destruct (size (_buffer s)) as [|n] eqn:Hn; [done|].
      simpl. rewrite Hd. rewrite IH by (simpl; lia).
      f_equal. simpl. lia.
    + destruct (size (_buffer s)); [done|]. simpl. by rewrite Hd.
Qed.

(** The [while] equation of [_process_buffer]. *)
Lemma process_buffer_while s :
  state_of (_process_buffer s) =
    match _buffer s !! _expected_seq_num s with
    | Some data => state_of (_process_buffer (deliver data s))
    | None => s
    end.
Proof.
  unfold _process_buffer, modify, state_of. simpl.
  destruct (_buffer s !! _expected_seq_num s) as [d|] eqn:Hd.
  - pose proof (map_size_delete (_expected_seq_num s) (_buffer s)) as Hsz.
    rewrite Hd in Hsz. simpl in Hsz.
    assert (size (_buffer s) <> 0)%nat.
    { intros H0%map_size_empty_iff. by rewrite H0 in Hd. }
    destruct (size (_buffer s)) as [|n] eqn:Hn; [done|].
    simpl. rewrite Hd. f_equal. simpl. lia.
  - destruct (size (_buffer s)); [done|]. simpl. by rewrite Hd.
Qed.

Lemma from_bytes_seq_range raw p :
  SWPPacket.from_bytes raw = Ok p -> 0 <= SWPPacket._seq_num p < 2 ^ 32.
Proof.
  intros (Hpack & _ & _)%from_bytes_Ok_inv. unfold Struct.pack in Hpack.
  destruct (_ && _) eqn:E in Hpack; [|discriminate].
  rewrite !andb_true_iff, !Z.leb_le in E. lia.
Qed.

Lemma ack_to_bytes s :
  0 <= s < 2 ^ 32 ->
  exists ack, SWPPacket.to_bytes (SWPPacket.mk ACK s []) = Ok ack
              /\ SWPPacket.from_bytes ack = Ok (SWPPacket.mk ACK s [])
              /\ length ack = 5%nat.
Proof.
  intros Hs. destruct (pack_Ok 65 s) as [h Hp]; [lia|done|].
  exists h. unfold SWPPacket.to_bytes. simpl. rewrite Hp, app_nil_r.
  split; [done|]. apply unpack_pack in Hp as [Hu Hlen]. split; [|done].
  unfold SWPPacket.from_bytes, SWPPacket._HEADER_SIZE.
  rewrite take_ge, drop_ge by (rewrite Hlen; done). by rewrite Hu.
Qed.

End Receiver.

Section ReceiverClaims.
Import SWPReceiver.

Lemma process_buffer_run s :
  exists ds, delivered_run s ds (state_of (_process_buffer s)).
Proof. apply process_buffer_loop_run. done. Qed.

Lemma recv_iteration_data r raw s d :
  SWPPacket.from_bytes raw = Ok (SWPPacket.mk DATA s d) ->
  _recv_iteration (Some raw) r =
    if in_window r s then
      match SWPPacket.to_bytes (SWPPacket.mk ACK s []) with
      | Ok ack =>
          _process_buffer (mk (_expected_seq_num r) (<[s := d]> (_buffer r))
                              (_ready_data r) (llp_sent r ++ [ack]))
      | Raise e =>
          (mk (_expected_seq_num r) (<[s := d]> (_buffer r))
              (_ready_data r) (llp_sent r), Raise e)
      end
    else (r, Ok tt).
Proof.
  intros Hraw. unfold _recv_iteration, bind, lift, get_state. rewrite Hraw. simpl.
  destruct (in_window r s); [|done].
  unfold modify, _send_ack, bind, lift. simpl.
  by destruct (SWPPacket.to_bytes (SWPPacket.mk ACK s [])).
Qed.

Lemma in_window_spec r s :
  in_window r s = true <->
  _expected_seq_num r <= s < _expected_seq_num r + _RECV_WINDOW_SIZE.
Proof. unfold in_window. rewrite andb_true_iff, Z.leb_le, Z.ltb_lt. done. Qed.

(** C3 (receive window): a DATA segment with sequence number [s] is accepted
    (stored in the reorder buffer, acknowledged, reassembled) if and only if
    [expected <= s < expected + window]; otherwise the turn of the loop
    leaves the receiver as it was: buffer, cursor, delivery queue and the
    datagrams sent are unchanged, so no ACK goes out. *)
Theorem receiver_accepts_iff_in_window (r : t) (raw : bytes) (s : Z) (d : bytes) :
  SWPPacket.from_bytes raw = Ok (SWPPacket.mk DATA s d) ->
  let res := _recv_iteration (Some raw) r in
  outcome res = Ok tt
  /\ (accepted r s d (state_of res) <->
      _expected_seq_num r <= s < _expected_seq_num r + _RECV_WINDOW_SIZE)
  /\ (~ (_expected_seq_num r <= s < _expected_seq_num r + _RECV_WINDOW_SIZE) ->
      state_of res = r).
Proof.
  intros Hraw res. subst res. rewrite (recv_iteration_data r raw s d Hraw).
  pose proof (from_bytes_seq_range _ _ Hraw) as Hs. simpl in Hs.
  destruct (ack_to_bytes s Hs) as (ack & Hack & _ & _).
  rewrite <- in_window_spec. destruct (in_window r s) eqn:Hw.
  - rewrite Hack. split; [done|]. split; [|done].
    split; [done|]. intros _. exists ack. done.
  - split; [done|]. split; [|done].
    split; [|done]. intros (ack' & Hack' & Hr'). exfalso.
    destruct (process_buffer_run
                (mk (_expected_seq_num r) (<[s:=d]> (_buffer r)) (_ready_data r)
                    (llp_sent r ++ [ack']))) as (ds & _ & _ & _ & _ & _ & Hsent).
    rewrite <- Hr' in Hsent. simpl in Hsent.
    apply (f_equal length) in Hsent. rewrite length_app in Hsent. simpl in Hsent. lia.
Qed.

Lemma receiver_accepts_iff_in_window_witness :
  let r := init in
  let res := _recv_iteration (Some [x44; x00; x00; x00; x0a; x61]) r in
  outcome res = Ok tt
  /\ (accepted r 10 [x61] (state_of res) <->
      _expected_seq_num r <= 10 < _expected_seq_num r + _RECV_WINDOW_SIZE)
  /\ (~ (_expected_seq_num r <= 10 < _expected_seq_num r + _RECV_WINDOW_SIZE) ->
      state_of res = r).
Proof.
  apply (receiver_accepts_iff_in_window init [x44; x00; x00; x00; x0a; x61] 10 [x61]).
  reflexivity.
Defined.

(** C4 (reassembly): [_process_buffer] returns, it is the loop "while the
    cursor is a key of the buffer: pop it, append its payload to the
    delivery queue, move the cursor by one", and what it delivers is a
    contiguous run: the payloads stored at [expected], [expected + 1], ...
    up to the first missing key, appended in that order; the cursor moves by
    the number of payloads delivered, exactly those keys leave the buffer,
    and nothing is delivered when [expected] is missing. *)
Theorem process_buffer_delivers_contiguous_run (s : t) :
  outcome (_process_buffer s) = Ok tt
  /\ state_of (_process_buffer s) =
       match _buffer s !! _expected_seq_num s with
       | Some data => state_of (_process_buffer (deliver data s))
       | None => s
       end
  /\ exists ds, delivered_run s ds (state_of (_process_buffer s)).
Proof.
  split; [done|]. split; [apply process_buffer_while|apply process_buffer_run].
Qed.

(** C7 (per-segment ACK): when a DATA segment with sequence number [s] is
    accepted, the receiver sends exactly one datagram; it is the 5-byte
    header alone and decodes to the ACK packet with sequence number [s] and
    an empty payload. *)
Theorem receiver_ack_echoes_sequence (r : t) (raw : bytes) (s : Z) (d : bytes) :
  SWPPacket.from_bytes raw = Ok (SWPPacket.mk DATA s d) ->
  _expected_seq_num r <= s < _expected_seq_num r + _RECV_WINDOW_SIZE ->
  exists ack,
    llp_sent (state_of (_recv_iteration (Some raw) r)) = llp_sent r ++ [ack]
    /\ SWPPacket.from_bytes ack = Ok (SWPPacket.mk ACK s [])
    /\ length ack = 5%nat.
Proof.
  intros Hraw Hw. rewrite (recv_iteration_data r raw s d Hraw).
  apply in_window_spec in Hw. rewrite Hw.
  pose proof (from_bytes_seq_range _ _ Hraw) as Hs. simpl in Hs.
  destruct (ack_to_bytes s Hs) as (ack & Hack & Hfrom & Hlen).
  rewrite Hack. exists ack. split; [|done].
  destruct (process_buffer_run
              (mk (_expected_seq_num r) (<[s:=d]> (_buffer r)) (_ready_data r)
                  (llp_sent r ++ [ack]))) as (ds & _ & _ & _ & _ & _ & Hsent).
  exact Hsent.
Qed.

Lemma receiver_ack_echoes_sequence_witness :
  exists ack,
    llp_sent (state_of (_recv_iteration (Some [x44; x00; x00; x00; x03; x61]) init))
    = llp_sent init ++ [ack]
    /\ SWPPacket.from_bytes ack = Ok (SWPPacket.mk ACK 3 [])
    /\ length ack = 5%nat.
Proof.
  apply (receiver_ack_echoes_sequence init [x44; x00; x00; x00; x03; x61] 3 [x61]).
  - reflexivity.
  - unfold _RECV_WINDOW_SIZE. simpl. lia.
Defined.

End ReceiverClaims.

(** ** Dictionaries *)

Section PyDictFacts.
Context {V : Type}.
Implicit Types (d : PyDict.t V) (k : Z) (v : V).

Lemma get_None_iff d k : PyDict.get d k = None <-> k ∉ PyDict.keys d.
Proof.
  induction d as [|[k' v'] d IH]; simpl.
  - split; [intros _; apply not_elem_of_nil|done].
  - rewrite not_elem_of_cons. case_decide; [split; [done|tauto]|].
    rewrite IH. tauto.
Qed.

Lemma get_is_Some_iff d k : is_Some (PyDict.get d k) <-> k ∈ PyDict.keys d.
Proof.
  pose proof (get_None_iff d k) as H. rewrite <- not_eq_None_Some.
  destruct (decide (k ∈ PyDict.keys d)); tauto.
Qed.

Lemma contains_spec d k : PyDict.contains d k = true <-> is_Some (PyDict.get d k).
Proof. unfold PyDict.contains. apply bool_decide_eq_true. Qed.

Lemma get_set d k v k' :
  PyDict.get (PyDict.set d k v) k' = if decide (k' = k) then Some v else PyDict.get d k'.
Proof.
  induction d as [|[k0 v0] d IH]; simpl.
  - by repeat case_decide.
  - destruct (decide (k = k0)) as [->|Hne]; simpl.
    + by repeat case_decide.
    + rewrite IH. repeat case_decide; congruence.
Qed.

Lemma keys_set d k v :
  PyDict.keys (PyDict.set d k v)
  = if decide (k ∈ PyDict.keys d) then PyDict.keys d else PyDict.keys d ++ [k].
Proof.
  induction d as [|[k0 v0] d IH]; simpl.
  - done.
  - destruct (decide (k = k0)) as [->|Hne]; simpl.
    + rewrite decide_True by apply list_elem_of_here. done.
    + rewrite IH. destruct (decide (k ∈ PyDict.keys d)) as [Hin|Hin].
      * rewrite decide_True by (by apply list_elem_of_further). done.
      * rewrite decide_False; [done|]. rewrite elem_of_cons. tauto.
Qed.

Lemma NoDup_keys_set d k v :
  NoDup (PyDict.keys d) -> NoDup (PyDict.keys (PyDict.set d k v)).
Proof.
  intros Hnd. rewrite keys_set. case_decide; [done|].
  apply NoDup_app. split; [done|]. split; [|apply NoDup_singleton].
  intros x Hx Hx'. apply list_elem_of_singleton in Hx'. by subst.
Qed.

Lemma len_set d k v :
  PyDict.len (PyDict.set d k v)
  = if decide (k ∈ PyDict.keys d) then PyDict.len d else S (PyDict.len d).
Proof.
  unfold PyDict.len. rewrite <- !(length_map fst). fold (PyDict.keys d).
  fold (PyDict.keys (PyDict.set d k v)). rewrite keys_set.
  case_decide; [done|]. rewrite length_app. simpl. lia.
Qed.

Lemma del_is_Some d k : is_Some (PyDict.get d k) -> is_Some (PyDict.del d k).
Proof.
  induction d as [|[k0 v0] d IH]; simpl; [by intros [? ?]|].
  case_decide; [eauto|]. intros [d' ->]%IH. eauto.
Qed.

Lemma del_spec d k d' :
  NoDup (PyDict.keys d) -> PyDict.del d k = Some d' ->
  NoDup (PyDict.keys d')
  /\ PyDict.len d = S (PyDict.len d')
  /\ forall k', PyDict.get d' k' = if decide (k' = k) then None else PyDict.get d k'.
Proof.
  revert d'. induction d as [|[k0 v0] d IH]; simpl; intros d' Hnd Hdel; [done|].
  apply NoDup_cons in Hnd as [Hk0 Hnd].
  destruct (decide (k = k0)) as [->|Hne].
  - injection Hdel as <-. split; [done|]. split; [done|].
    intros k'. case_decide as Hk; [|done]. subst. by apply get_None_iff.
  - destruct (PyDict.del d k) as [d''|] eqn:Hd''; [|done]. injection Hdel as <-.
    destruct (IH d'' Hnd eq_refl) as (Hnd'' & Hlen & Hget).
    split; [|split].
    + simpl. apply NoDup_cons. split; [|done].
      intros Hin. apply get_is_Some_iff in Hin. rewrite Hget in Hin.
      case_decide; [by destruct Hin|]. apply get_is_Some_iff in Hin. done.
    + unfold PyDict.len in *. simpl. lia.
    + intros k'. simpl. rewrite Hget. repeat case_decide; congruence.
Qed.

End PyDictFacts.

(** ** The sender *)

Section Sender.
Import SWPSender.

Lemma send_full s data :
  (_SEND_WINDOW_SIZE <= PyDict.len (_send_buffer s))%nat ->
  _send data s = (s, Ok tt).
Proof.
  intros Hfull. unfold _send, bind, get_state. simpl.
  by rewrite decide_True by done.
Qed.

Lemma send_room s data :
  (PyDict.len (_send_buffer s) < _SEND_WINDOW_SIZE)%nat ->
  let seq_num := _next_seq_num s in
  let packet := SWPPacket.mk DATA seq_num data in
  _send data s =
    match SWPPacket.to_bytes packet with
    | Ok raw =>
        (mk (seq_num + 1) (PyDict.set (_send_buffer s) seq_num packet)
            (PyDict.set (_timers s) seq_num (length (timer_objs s)))
            (timer_objs s ++ [mkTimer seq_num false]) (llp_sent s ++ [raw]),
         Ok tt)
    | Raise e =>
        (mk (seq_num + 1) (PyDict.set (_send_buffer s) seq_num packet)
            (_timers s) (timer_objs s) (llp_sent s),
         Raise e)
    end.
Proof.
  intros Hroom. unfold _send, bind, get_state. simpl.
  rewrite decide_False by lia. unfold modify, lift. simpl.
  by destruct (SWPPacket.to_bytes _).
Qed.

Lemma retransmit_absent s seq_num :
  PyDict.get (_send_buffer s) seq_num = None ->
  _retransmit seq_num s = (s, Ok tt).
Proof.
  intros Hnone. unfold _retransmit, bind, get_state. simpl.
  destruct (PyDict.contains (_send_buffer s) seq_num) eqn:Hc; [|done].
  apply contains_spec in Hc. rewrite Hnone in Hc. by destruct Hc.
Qed.

Lemma retransmit_present s seq_num packet raw old :
  PyDict.get (_send_buffer s) seq_num = Some packet ->
  SWPPacket.to_bytes packet = Ok raw ->
  PyDict.get (_timers s) seq_num = Some old ->
  _retransmit seq_num s =
    (mk (_next_seq_num s) (_send_buffer s)
        (PyDict.set (_timers s) seq_num (length (timer_objs s)))
        (alter timer_cancel old (timer_objs s) ++ [mkTimer seq_num false])
        (llp_sent s ++ [raw]),
     Ok tt).
Proof.
  intros Hp Hraw Hold. unfold _retransmit, bind, get_state. simpl.
  replace (PyDict.contains (_send_buffer s) seq_num) with true
    by (symmetry; apply contains_spec; rewrite Hp; eauto).
  rewrite Hp. simpl. unfold lift. rewrite Hraw. simpl. rewrite Hold. simpl.
  by rewrite length_alter.
Qed.

Lemma ack_one_above s ack_seq_num seq_num :
  ack_seq_num < seq_num -> ack_one ack_seq_num seq_num s = (s, Ok tt).
Proof. intros Hlt. unfold ack_one. by rewrite decide_False by lia. Qed.

Lemma ack_one_covered s ack_seq_num seq_num timer timers' buffer' :
  seq_num <= ack_seq_num ->
  PyDict.get (_timers s) seq_num = Some timer ->
  PyDict.del (_timers s) seq_num = Some timers' ->
  PyDict.del (_send_buffer s) seq_num = Some buffer' ->
  ack_one ack_seq_num seq_num s =
    (mk (_next_seq_num s) buffer' timers'
        (alter timer_cancel timer (timer_objs s)) (llp_sent s),
     Ok tt).
Proof.
  intros Hle Ht Hdt Hdb. unfold ack_one. rewrite decide_True by done.
  unfold bind, get_state. simpl. rewrite Ht. simpl. rewrite Hdt. simpl.
  by rewrite Hdb.
Qed.

Lemma recv_iteration_decoded s raw packet :
  SWPPacket.from_bytes raw = Ok packet ->
  _recv_iteration (Some raw) s =
    if decide (SWPPacket._type packet = ACK)
    then process_ack (SWPPacket._seq_num packet) s
    else (s, Ok tt).
Proof.
  intros Hraw. unfold _recv_iteration, bind, lift. rewrite Hraw.
  by case_decide.
Qed.

Lemma recv_iteration_malformed s raw e :
  SWPPacket.from_bytes raw = Raise e ->
  _recv_iteration (Some raw) s = (s, Raise e).
Proof. intros Hraw. unfold _recv_iteration, bind, lift. by rewrite Hraw. Qed.

Lemma to_bytes_Ok p :
  0 <= SWPPacket._seq_num p < 2 ^ 32 -> exists raw, SWPPacket.to_bytes p = Ok raw.
Proof.
  intros Hseq. unfold SWPPacket.to_bytes.
  destruct (pack_Ok (SWPType.value (SWPPacket._type p)) (SWPPacket._seq_num p))
    as [h ->]; [by destruct (SWPPacket._type p)|done|eauto].
Qed.

Lemma sender_inv_init : sender_inv init.
Proof.
  split; simpl; try done.
  - unfold _SEND_WINDOW_SIZE. lia.
  - apply NoDup_nil_2.
  - apply NoDup_nil_2.
Qed.

Lemma inv_fresh_key s :
  sender_inv s ->
  (_next_seq_num s ∉ PyDict.keys (_send_buffer s))
  /\ (_next_seq_num s ∉ PyDict.keys (_timers s)).
Proof.
  intros Hinv.
  assert (PyDict.get (_send_buffer s) (_next_seq_num s) = None) as Hb.
  { destruct (PyDict.get _ _) as [p|] eqn:Hp; [|done].
    apply (inv_packet _ Hinv) in Hp. lia. }
  split; [by apply get_None_iff|].
  apply get_None_iff. apply eq_None_not_Some. rewrite <- (inv_keys _ Hinv).
  rewrite Hb. by intros [? ?].
Qed.

Lemma sender_inv_send s data :
  sender_inv s -> _next_seq_num s < 2 ^ 32 ->
  outcome (_send data s) = Ok tt /\ sender_inv (state_of (_send data s)).
Proof.
  intros Hinv Hnext.
  destruct (decide (_SEND_WINDOW_SIZE <= PyDict.len (_send_buffer s))%nat) as [Hfull|Hroom].
  { by rewrite send_full. }
  rewrite send_room by lia.
  pose proof (inv_next _ Hinv) as Hn.
  destruct (to_bytes_Ok (SWPPacket.mk DATA (_next_seq_num s) data)) as [raw ->];
    [simpl; lia|].
  split; [done|]. unfold state_of. simpl.
  destruct (inv_fresh_key s Hinv) as [Hfb Hft].
  split; simpl.
  - rewrite len_set. case_decide; [done|]. lia.
  - by apply NoDup_keys_set, Hinv.
  - by apply NoDup_keys_set, Hinv.
  - intros k. rewrite !get_set. case_decide; [by split; eauto|]. apply Hinv.
  - intros k p. rewrite get_set. case_decide as Hk.
    + intros [= <-]. simpl. lia.
    + intros Hp. apply (inv_packet _ Hinv) in Hp. lia.
  - lia.
  - intros k tid. rewrite get_set. unfold live_timer. simpl. case_decide as Hk.
    + intros [= <-]. subst k. apply lookup_snoc_Some. by right.
    + intros Ht. apply lookup_app_l_Some. by apply (inv_timer_live _ Hinv).
  - intros tid T HT Hlive. rewrite get_set.
    apply lookup_snoc_Some in HT as [[_ HT]|[-> <-]].
    + pose proof (inv_live_timer _ Hinv _ _ HT Hlive) as Hget.
      rewrite decide_False; [done|]. intros Heq. apply Hft.
      apply get_is_Some_iff. rewrite <- Heq, Hget. eauto.
    + simpl. by rewrite decide_True.
Qed.

Lemma sender_inv_retransmit s seq_num :
  sender_inv s ->
  outcome (_retransmit seq_num s) = Ok tt
  /\ sender_inv (state_of (_retransmit seq_num s)).
Proof.
  intros Hinv.
  destruct (PyDict.get (_send_buffer s) seq_num) as [p|] eqn:Hp.
  2:{ by rewrite retransmit_absent. }
  pose proof (inv_packet _ Hinv _ _ Hp) as [Hseq Hrange].
  pose proof (inv_next _ Hinv) as Hn.
  destruct (to_bytes_Ok p) as [raw Hraw]; [lia|].
  destruct (proj1 (inv_keys _ Hinv seq_num)) as [old Hold]; [by rewrite Hp; eauto|].
  rewrite (retransmit_present s seq_num p raw old) by done.
  split; [done|]. unfold state_of. simpl.
  pose proof (inv_timer_live _ Hinv _ _ Hold) as Hlive_old. unfold live_timer in Hlive_old.
  split; simpl; try apply Hinv.
  - by apply NoDup_keys_set, Hinv.
  - intros k. rewrite get_set. case_decide as Hk; [|apply Hinv].
    subst k. rewrite Hp. split; eauto.
  - intros k tid. rewrite get_set. unfold live_timer. simpl. case_decide as Hk.
    + intros [= <-]. subst k. apply lookup_snoc_Some. right.
      by rewrite length_alter.
    + intros Ht. apply lookup_app_l_Some.
      pose proof (inv_timer_live _ Hinv _ _ Ht) as Hl. unfold live_timer in Hl.
      rewrite list_lookup_alter_ne; [done|]. intros ->. congruence.
  - intros tid T HT Hlive. rewrite get_set.
    apply lookup_snoc_Some in HT as [[_ HT]|[Htid <-]].
    + destruct (decide (old = tid)) as [->|Hne].
      { rewrite list_lookup_alter_eq, Hlive_old in HT. simpl in HT.
        injection HT as <-. done. }
      rewrite list_lookup_alter_ne in HT by done.
      pose proof (inv_live_timer _ Hinv _ _ HT Hlive) as Hget.
      rewrite decide_False; [done|]. intros Heq. congruence.
    + simpl. rewrite decide_True by done. by rewrite length_alter in Htid; subst.
Qed.

Lemma cancel_finished s tid T :
  timer_objs s !! tid = Some T -> finished T = true -> cancel tid s = (s, Ok tt).
Proof.
  intros HT Hfin. unfold cancel, modify, set_timer_objs. f_equal.
  destruct s as [n b m objs sent]. simpl in *. f_equal.
  apply list_eq. intros i. destruct (decide (tid = i)) as [->|Hne].
  - rewrite list_lookup_alter_eq, HT. simpl. f_equal.
    destruct T as [a f]. simpl in *. by subst.
  - by rewrite list_lookup_alter_ne.
Qed.

Lemma sender_inv_timer_run s tid :
  sender_inv s ->
  outcome (timer_run tid s) = Ok tt /\ sender_inv (state_of (timer_run tid s)).
Proof.
  intros Hinv. unfold timer_run, bind, get_state. simpl.
  destruct (timer_objs s !! tid) as [T|] eqn:HT; [|done].
  destruct (finished T) eqn:Hfin.
  { unfold ret. by rewrite (cancel_finished s tid T). }
  pose proof (inv_live_timer _ Hinv _ _ HT Hfin) as Hold.
  destruct (proj2 (inv_keys _ Hinv (timer_arg T))) as [p Hp]; [by rewrite Hold; eauto|].
  pose proof (inv_packet _ Hinv _ _ Hp) as [Hseq Hrange].
  pose proof (inv_next _ Hinv) as Hn.
  destruct (to_bytes_Ok p) as [raw Hraw]; [lia|].
  pose proof (sender_inv_retransmit s (timer_arg T) Hinv) as [_ Hinv'].
  rewrite (retransmit_present s _ p raw tid) in * by done.
  lazy beta iota. erewrite cancel_finished; [done| |].
  - simpl. apply lookup_app_l_Some. rewrite list_lookup_alter_eq, HT. done.
  - done.
Qed.

Lemma ack_one_inv s N k :
  sender_inv s -> is_Some (PyDict.get (_send_buffer s) k) ->
  exists s',
    ack_one N k s = (s', Ok tt)
    /\ sender_inv s'
    /\ _next_seq_num s' = _next_seq_num s
    /\ llp_sent s' = llp_sent s
    /\ (forall k', PyDict.get (_send_buffer s') k' =
          if decide (k' = k /\ k <= N) then None else PyDict.get (_send_buffer s) k')
    /\ (forall k', PyDict.get (_timers s') k' =
          if decide (k' = k /\ k <= N) then None else PyDict.get (_timers s) k')
    /\ (forall tid T, timer_objs s !! tid = Some T ->
          timer_objs s' !! tid =
            Some (if decide (finished T = false /\ timer_arg T = k /\ k <= N)
                  then timer_cancel T else T)).
Proof.
  intros Hinv Hk. destruct (decide (k <= N)) as [Hle|Hgt].
  2:{ exists s. rewrite ack_one_above by lia.
      split; [done|]. split; [done|]. split; [done|]. split; [done|].
      split; [|split].
      - intros k'. by rewrite decide_False by tauto.
      - intros k'. by rewrite decide_False by tauto.
      - intros tid T ->. by rewrite decide_False by tauto. }
  destruct (proj1 (inv_keys _ Hinv k) Hk) as [tid Htid].
  destruct (del_is_Some (_timers s) k) as [timers' Hdt]; [by rewrite Htid; eauto|].
  destruct (del_is_Some (_send_buffer s) k) as [buffer' Hdb]; [done|].
  destruct (del_spec _ _ _ (inv_nodup_timers _ Hinv) Hdt) as (Hndt & Hlent & Hgett).
  destruct (del_spec _ _ _ (inv_nodup_buffer _ Hinv) Hdb) as (Hndb & Hlenb & Hgetb).
  pose proof (inv_timer_live _ Hinv _ _ Htid) as Hlive. unfold live_timer in Hlive.
  eexists. split; [by apply (ack_one_covered s N k tid timers' buffer')|].
  simpl. split; [|split; [done|split; [done|split; [|split]]]].
  - split; simpl.
    + pose proof (inv_len _ Hinv). lia.
    + done.
    + done.
    + intros k'. rewrite Hgetb, Hgett. case_decide; [done|]. apply Hinv.
    + intros k' p. rewrite Hgetb. case_decide; [done|]. apply Hinv.
    + apply Hinv.
    + intros k' tid'. rewrite Hgett. case_decide as Hk'; [done|]. intros Ht'.
      pose proof (inv_timer_live _ Hinv _ _ Ht') as Hl'. unfold live_timer in *.
      simpl. rewrite list_lookup_alter_ne; [done|]. intros ->. congruence.
    + intros tid' T HT Hfin. rewrite Hgett.
      destruct (decide (tid = tid')) as [->|Hne].
      { rewrite list_lookup_alter_eq, Hlive in HT. simpl in HT.
        injection HT as <-. done. }
      rewrite list_lookup_alter_ne in HT by done.
      pose proof (inv_live_timer _ Hinv _ _ HT Hfin) as Hget.
      rewrite decide_False; [done|]. intros Heq. congruence.
  - intros k'. rewrite Hgetb. repeat case_decide; try done; tauto.
  - intros k'. rewrite Hgett. repeat case_decide; try done; tauto.
  - intros tid' T HT. destruct (decide (tid = tid')) as [->|Hne].
    + rewrite list_lookup_alter_eq, HT. simpl. rewrite Hlive in HT.
      injection HT as <-. by rewrite decide_True.
    + rewrite list_lookup_alter_ne, HT by done. f_equal.
      rewrite decide_False; [done|]. intros (Hfin & Harg & _).
      pose proof (inv_live_timer _ Hinv _ _ HT Hfin) as Hget. congruence.
Qed.

Lemma ack_loop_inv N ks s :
  sender_inv s -> NoDup ks ->
  (forall k, k ∈ ks -> is_Some (PyDict.get (_send_buffer s) k)) ->
  exists s',
    for_each ks (ack_one N) s = (s', Ok tt)
    /\ sender_inv s'
    /\ _next_seq_num s' = _next_seq_num s
    /\ llp_sent s' = llp_sent s
    /\ (forall k', PyDict.get (_send_buffer s') k' =
          if decide (k' <= N /\ k' ∈ ks) then None else PyDict.get (_send_buffer s) k')
    /\ (forall k', PyDict.get (_timers s') k' =
          if decide (k' <= N /\ k' ∈ ks) then None else PyDict.get (_timers s) k')
    /\ (forall tid T, timer_objs s !! tid = Some T ->
          timer_objs s' !! tid =
            Some (if decide (finished T = false /\ timer_arg T <= N /\ timer_arg T ∈ ks)
                  then timer_cancel T else T)).
Proof.
  revert s. induction ks as [|k ks IH]; intros s Hinv Hnd Hin.
  - exists s. simpl.
    split; [done|]. split; [done|]. split; [done|]. split; [done|].
    split; [|split].
    + intros k'. rewrite decide_False; [done|]. intros [_ H]. by apply not_elem_of_nil in H.
    + intros k'. rewrite decide_False; [done|]. intros [_ H]. by apply not_elem_of_nil in H.
    + intros tid T ->. rewrite decide_False; [done|].
      intros (_ & _ & H). by apply not_elem_of_nil in H.
  - apply NoDup_cons in Hnd as [Hk Hnd].
    destruct (ack_one_inv s N k Hinv) as (s1 & Hs1 & Hinv1 & Hn1 & Hsent1 & Hb1 & Ht1 & Ho1).
    { apply Hin, list_elem_of_here. }
    destruct (IH s1 Hinv1 Hnd) as (s' & Hs' & Hinv' & Hn' & Hsent' & Hb' & Ht' & Ho').
    { intros k' Hk'. rewrite Hb1. rewrite decide_False.
      - by apply Hin, list_elem_of_further.
      - intros [-> _]. done. }
    exists s'. simpl. unfold bind. rewrite Hs1, Hs'.
    split; [done|]. split; [done|]. split; [congruence|]. split; [congruence|].
    split; [|split].
    + intros k'. rewrite Hb', Hb1.
      destruct (decide (k' <= N /\ k' ∈ ks)) as [H1|H1],
        (decide (k' = k /\ k <= N)) as [H2|H2],
        (decide (k' <= N /\ k' ∈ k :: ks)) as [H3|H3];
        try done; exfalso; rewrite elem_of_cons in H3; intuition lia.
    + intros k'. rewrite Ht', Ht1.
      destruct (decide (k' <= N /\ k' ∈ ks)) as [H1|H1],
        (decide (k' = k /\ k <= N)) as [H2|H2],
        (decide (k' <= N /\ k' ∈ k :: ks)) as [H3|H3];
        try done; exfalso; rewrite elem_of_cons in H3; intuition lia.
    + intros tid T HT. rewrite (Ho' tid _ (Ho1 tid T HT)). f_equal.
      destruct (decide (finished T = false /\ timer_arg T = k /\ k <= N)) as [H1|H1].
      * rewrite (decide_False (P := finished (timer_cancel T) = false /\ _))
          by (simpl; by intros [? _]).
        rewrite decide_True; [done|]. rewrite elem_of_cons. intuition lia.
      * destruct (decide (finished T = false /\ timer_arg T <= N /\ timer_arg T ∈ ks))
          as [H2|H2].
        -- rewrite decide_True; [done|]. rewrite elem_of_cons. intuition.
        -- rewrite decide_False; [done|]. rewrite elem_of_cons. intuition lia.
Qed.

Lemma process_ack_inv N s :
  sender_inv s ->
  exists s',
    process_ack N s = (s', Ok tt)
    /\ sender_inv s'
    /\ _next_seq_num s' = _next_seq_num s
    /\ llp_sent s' = llp_sent s
    /\ (forall k, PyDict.get (_send_buffer s') k =
          if decide (k <= N) then None else PyDict.get (_send_buffer s) k)
    /\ (forall k, PyDict.get (_timers s') k =
          if decide (k <= N) then None else PyDict.get (_timers s) k)
    /\ (forall tid T, timer_objs s !! tid = Some T ->
          timer_objs s' !! tid =
            Some (if decide (finished T = false /\ timer_arg T <= N)
                  then timer_cancel T else T)).
Proof.
  intros Hinv.
  destruct (ack_loop_inv N (PyDict.keys (_send_buffer s)) s Hinv)
    as (s' & Hs' & Hinv' & Hn' & Hsent' & Hb' & Ht' & Ho').
  { apply Hinv. }
  { intros k. by rewrite get_is_Some_iff. }
  exists s'. split; [done|]. split; [done|]. split; [done|]. split; [done|].
  split; [|split].
  - intros k. rewrite Hb'. destruct (decide (k ∈ PyDict.keys (_send_buffer s))) as [Hin|Hnin].
    + repeat case_decide; try done; tauto.
    + apply get_None_iff in Hnin. rewrite Hnin. by repeat case_decide.
  - intros k. rewrite Ht'. destruct (decide (k ∈ PyDict.keys (_send_buffer s))) as [Hin|Hnin].
    + repeat case_decide; try done; tauto.
    + assert (PyDict.get (_timers s) k = None) as ->; [|by repeat case_decide].
      apply eq_None_not_Some. rewrite <- (inv_keys _ Hinv). by rewrite get_is_Some_iff.
  - intros tid T HT. rewrite (Ho' tid T HT). f_equal.
    destruct (finished T) eqn:Hfin.
    + rewrite !decide_False; [done| |]; intros [? _]; done.
    + pose proof (inv_live_timer _ Hinv _ _ HT Hfin) as Hget.
      assert (timer_arg T ∈ PyDict.keys (_send_buffer s)).
      { apply get_is_Some_iff, (inv_keys _ Hinv). rewrite Hget. eauto. }
      repeat case_decide; try done; tauto.
Qed.

Lemma sender_inv_recv_iteration s raw :
  sender_inv s -> sender_inv (state_of (_recv_iteration raw s)).
Proof.
  intros Hinv. destruct raw as [raw|]; [|done].
  destruct (SWPPacket.from_bytes raw) as [p|e] eqn:Hraw.
  - rewrite (recv_iteration_decoded s raw p Hraw). case_decide; [|done].
    destruct (process_ack_inv (SWPPacket._seq_num p) s Hinv) as (s' & -> & Hinv' & _).
    done.
  - by rewrite (recv_iteration_malformed s raw e Hraw).
Qed.

Lemma sender_inv_window s : sender_inv s -> window_invariant s.
Proof.
  intros Hinv. split; [apply Hinv|]. split.
  - intros k. rewrite <- !get_is_Some_iff. apply Hinv.
  - intros k Hk. apply get_is_Some_iff, (inv_keys _ Hinv) in Hk as [tid Htid].
    exists tid. split; [done|]. intros tid'. split.
    + intros Hlive. unfold live_timer in Hlive.
      pose proof (inv_live_timer _ Hinv _ _ Hlive eq_refl) as Hget. simpl in Hget.
      congruence.
    + intros ->. by apply Hinv.
Qed.

End Sender.

Lemma for_each_app {S A} (l1 l2 : list A) (body : A -> M S unit) (s : S) :
  for_each (l1 ++ l2) body s =
    match for_each l1 body s with
    | (s', Ok _) => for_each l2 body s'
    | (s', Raise e) => (s', Raise e)
    end.
Proof.
  revert s. induction l1 as [|x l1 IH]; intros s; [done|].
  simpl. unfold bind. destruct (body x s) as [s1 [[]|e]]; [apply IH|done].
Qed.

Section SenderClaims.
Import SWPSender.

Lemma sender_inv_sends datas s :
  sender_inv s -> _next_seq_num s + Z.of_nat (length datas) <= 2 ^ 32 ->
  sender_inv (state_of (for_each datas _send s))
  /\ outcome (for_each datas _send s) = Ok tt
  /\ _next_seq_num (state_of (for_each datas _send s))
     <= _next_seq_num s + Z.of_nat (length datas).
Proof.
  revert s. induction datas as [|d datas IH]; intros s Hinv Hn.
  - simpl. split; [done|]. split; [done|]. unfold state_of. simpl. lia.
  - simpl in *. unfold bind.
    destruct (sender_inv_send s d Hinv) as [Hok Hinv1]; [lia|].
    assert (_next_seq_num (state_of (_send d s)) <= _next_seq_num s + 1) as Hn1.
    { destruct (decide (_SEND_WINDOW_SIZE <= PyDict.len (_send_buffer s))%nat).
      - rewrite send_full by done. unfold state_of. simpl. lia.
      - rewrite send_room by lia. unfold state_of.
        destruct (SWPPacket.to_bytes _); simpl; lia. }
    destruct (_send d s) as [s1 [[]|e]]; [|done]. unfold state_of in *. simpl in *.
    destruct (IH s1 Hinv1) as (? & ? & ?); [lia|]. unfold state_of in *.
    split; [done|]. split; [done|]. lia.
Qed.

Lemma sender_inv_sender3 : sender_inv sender3.
Proof.
  apply (sender_inv_sends [[x61]; [x62]; [x63]] init sender_inv_init).
  simpl. lia.
Qed.

Lemma sender_inv_sender5 : sender_inv sender5.
Proof.
  apply (sender_inv_sends [[x61]; [x62]; [x63]; [x64]; [x65]] init sender_inv_init).
  simpl. lia.
Qed.

(** C1 as stated fails: with five segments outstanding, a sixth submission
    returns with the sender exactly as it was; there is no queue to hold the
    segment.  Once ACK 4 has emptied the window nothing is outstanding, no
    timer is live, and the five datagrams of the first five segments are all
    that was ever transmitted. *)
Lemma send_on_full_window_is_dropped :
  let s6 := state_of (_send [x66] sender5) in
  let s7 := state_of (_recv_iteration (Some [x41; x00; x00; x00; x04]) s6) in
  PyDict.len (_send_buffer sender5) = _SEND_WINDOW_SIZE
  /\ _send [x66] sender5 = (sender5, Ok tt)
  /\ _send_buffer s7 = [] /\ _timers s7 = []
  /\ Forall (fun T => finished T = true) (timer_objs s7)
  /\ llp_sent s7 = [ [x44; x00; x00; x00; x00; x61]; [x44; x00; x00; x00; x01; x62];
                     [x44; x00; x00; x00; x02; x63]; [x44; x00; x00; x00; x03; x64];
                     [x44; x00; x00; x00; x04; x65] ].
Proof.
  vm_compute. repeat split; repeat constructor.
Qed.

(** C1 (amended): a submission made while the table holds [_SEND_WINDOW_SIZE]
    entries is discarded: [_send] returns, the sender is unchanged and
    nothing is transmitted.  A submission made while there is room (and the
    counter fits 32 bits) is transmitted at once: the counter moves by one,
    the packet is stored under its sequence number, its encoding is handed
    to the transport and a fresh timer is armed for it. *)
Theorem send_discards_when_window_full (s : t) (data : bytes) :
  0 <= _next_seq_num s < 2 ^ 32 ->
  let packet := SWPPacket.mk DATA (_next_seq_num s) data in
  outcome (_send data s) = Ok tt
  /\ if decide (_SEND_WINDOW_SIZE <= PyDict.len (_send_buffer s))%nat
     then state_of (_send data s) = s
     else exists raw,
       SWPPacket.to_bytes packet = Ok raw
       /\ state_of (_send data s) =
            mk (_next_seq_num s + 1)
               (PyDict.set (_send_buffer s) (_next_seq_num s) packet)
               (PyDict.set (_timers s) (_next_seq_num s) (length (timer_objs s)))
               (timer_objs s ++ [mkTimer (_next_seq_num s) false])
               (llp_sent s ++ [raw]).
Proof.
  intros Hn packet. case_decide as Hfull.
  - by rewrite send_full.
  - rewrite send_room by lia.
    destruct (to_bytes_Ok packet) as [raw Hraw]; [done|].
    fold packet. rewrite Hraw. split; [done|]. by exists raw.
Qed.

Lemma send_discards_when_window_full_witness :
  outcome (_send [x66] sender5) = Ok tt
  /\ if decide (_SEND_WINDOW_SIZE <= PyDict.len (_send_buffer sender5))%nat
     then state_of (_send [x66] sender5) = sender5
     else exists raw,
       SWPPacket.to_bytes (SWPPacket.mk DATA (_next_seq_num sender5) [x66]) = Ok raw
       /\ state_of (_send [x66] sender5) =
            mk (_next_seq_num sender5 + 1)
               (PyDict.set (_send_buffer sender5) (_next_seq_num sender5)
                  (SWPPacket.mk DATA (_next_seq_num sender5) [x66]))
               (PyDict.set (_timers sender5) (_next_seq_num sender5)
                  (length (timer_objs sender5)))
               (timer_objs sender5 ++ [mkTimer (_next_seq_num sender5) false])
               (llp_sent sender5 ++ [raw]).
Proof.
  apply (send_discards_when_window_full sender5 [x66]).
  vm_compute. split; [discriminate|reflexivity].
Defined.

(** C2 (cumulative ACK): when the receive loop processes an ACK with
    sequence number [N] the turn completes; every entry with key [k <= N]
    is gone from [_send_buffer] and from [_timers] and its timer has been
    cancelled; every entry with key [k > N] is still there, in both
    dictionaries, with its timer live. *)
Theorem ack_removes_exactly_up_to_N (s : t) (raw : bytes) (p : SWPPacket.t) :
  sender_inv s ->
  SWPPacket.from_bytes raw = Ok p -> SWPPacket._type p = ACK ->
  let N := SWPPacket._seq_num p in
  let res := _recv_iteration (Some raw) s in
  outcome res = Ok tt
  /\ (forall k, k <= N ->
        PyDict.get (_send_buffer (state_of res)) k = None
        /\ PyDict.get (_timers (state_of res)) k = None)
  /\ (forall k tid, k <= N -> PyDict.get (_timers s) k = Some tid ->
        timer_objs (state_of res) !! tid = Some (mkTimer k true))
  /\ (forall k, N < k ->
        PyDict.get (_send_buffer (state_of res)) k = PyDict.get (_send_buffer s) k
        /\ PyDict.get (_timers (state_of res)) k = PyDict.get (_timers s) k)
  /\ (forall k tid, N < k -> PyDict.get (_timers s) k = Some tid ->
        live_timer (state_of res) tid k).
Proof.
  intros Hinv Hraw Hty N res. subst res.
  rewrite (recv_iteration_decoded s raw p Hraw). rewrite decide_True by done.
  destruct (process_ack_inv N s Hinv) as (s' & Hs' & _ & _ & _ & Hb & Ht & Ho).
  fold N. rewrite Hs'. unfold outcome, state_of. simpl.
  split; [done|]. split; [|split; [|split]].
  - intros k Hk. rewrite Hb, Ht. by rewrite !decide_True by done.
  - intros k tid Hk Htid.
    pose proof (inv_timer_live _ Hinv _ _ Htid) as Hl. unfold live_timer in Hl.
    rewrite (Ho tid _ Hl). simpl. by rewrite decide_True by done.
  - intros k Hk. rewrite Hb, Ht. by rewrite !decide_False by lia.
  - intros k tid Hk Htid.
    pose proof (inv_timer_live _ Hinv _ _ Htid) as Hl. unfold live_timer in *.
    rewrite (Ho tid _ Hl). simpl. rewrite decide_False; [done|]. intros [_ ?]. lia.
Qed.

Lemma ack_removes_exactly_up_to_N_witness :
  let res := _recv_iteration (Some [x41; x00; x00; x00; x01]) sender3 in
  outcome res = Ok tt
  /\ (forall k, k <= 1 ->
        PyDict.get (_send_buffer (state_of res)) k = None
        /\ PyDict.get (_timers (state_of res)) k = None)
  /\ (forall k tid, k <= 1 -> PyDict.get (_timers sender3) k = Some tid ->
        timer_objs (state_of res) !! tid = Some (mkTimer k true))
  /\ (forall k, 1 < k ->
        PyDict.get (_send_buffer (state_of res)) k = PyDict.get (_send_buffer sender3) k
        /\ PyDict.get (_timers (state_of res)) k = PyDict.get (_timers sender3) k)
  /\ (forall k tid, 1 < k -> PyDict.get (_timers sender3) k = Some tid ->
        live_timer (state_of res) tid k).
Proof.
  apply (ack_removes_exactly_up_to_N sender3 [x41; x00; x00; x00; x01]
           (SWPPacket.mk ACK 1 [])).
  - exact sender_inv_sender3.
  - reflexivity.
  - reflexivity.
Defined.

Lemma run_op_next_seq_num s o :
  sender_inv s -> _next_seq_num (state_of (run_op o s)) <= _next_seq_num s + 1.
Proof.
  intros Hinv. destruct o as [data|seq_num|tid|raw]; simpl.
  - destruct (decide (_SEND_WINDOW_SIZE <= PyDict.len (_send_buffer s))%nat).
    + rewrite send_full by done. unfold state_of. simpl. lia.
    + rewrite send_room by lia. unfold state_of.
      destruct (SWPPacket.to_bytes _); simpl; lia.
  - unfold _retransmit, bind, get_state, lift_key, lift, state_of. simpl.
    destruct (PyDict.contains _ _); simpl; [|lia].
    destruct (PyDict.get (_send_buffer s) seq_num); simpl; [|lia].
    destruct (SWPPacket.to_bytes _); simpl; [|lia].
    destruct (PyDict.get (_timers s) seq_num); simpl; lia.
  - unfold timer_run, bind, get_state, state_of. simpl.
    destruct (timer_objs s !! tid) as [T|]; simpl; [|lia].
    destruct (finished T); simpl; [lia|].
    unfold _retransmit, bind, get_state, lift_key, lift. simpl.
    destruct (PyDict.contains _ _); simpl; [|lia].
    destruct (PyDict.get (_send_buffer s) (timer_arg T)); simpl; [|lia].
    destruct (SWPPacket.to_bytes _); simpl; [|lia].
    destruct (PyDict.get (_timers s) (timer_arg T)); simpl; lia.
  - destruct raw as [raw|]; [|unfold state_of; simpl; lia].
    destruct (SWPPacket.from_bytes raw) as [p|e] eqn:Hraw.
    + rewrite (recv_iteration_decoded s raw p Hraw).
      case_decide; [|unfold state_of; simpl; lia].
      destruct (process_ack_inv (SWPPacket._seq_num p) s Hinv) as (s' & -> & _ & Hn & _).
      unfold state_of. simpl. lia.
    + rewrite (recv_iteration_malformed s raw e Hraw). unfold state_of. simpl. lia.
Qed.

(** Every state the sender reaches from its initial state in at most 2^32
    operations satisfies the window invariant. *)
Lemma run_ops_window_invariant ops :
  Z.of_nat (length ops) <= 2 ^ 32 -> window_invariant (run_ops ops init).
Proof.
  intros Hlen. apply sender_inv_window.
  assert (forall s, sender_inv s ->
            _next_seq_num s + Z.of_nat (length ops) <= 2 ^ 32 ->
            sender_inv (run_ops ops s)) as Hrun.
  { clear Hlen. induction ops as [|o ops IH]; intros s Hinv Hn; [done|].
    simpl in *. apply IH.
    - destruct o as [data|seq_num|tid|raw]; simpl.
      + apply sender_inv_send; [done|lia].
      + by apply sender_inv_retransmit.
      + by apply sender_inv_timer_run.
      + by apply sender_inv_recv_iteration.
    - pose proof (run_op_next_seq_num s o Hinv). lia. }
  apply Hrun; [apply sender_inv_init|]. simpl. lia.
Qed.

(** C5 (window invariant): each operation of the sender (a per-segment
    submission, a retransmission, a timer expiry, a turn of the receive loop
    and so the processing of an ACK), started where the invariant holds and
    the counter fits 32 bits, ends where it holds again: [_send_buffer] has
    at most [_SEND_WINDOW_SIZE] (5) entries, [_send_buffer] and [_timers]
    have the same keys, and each key has exactly one live timer. *)
Theorem sender_ops_preserve_window_invariant (s : t) (o : sender_op) :
  sender_inv s -> _next_seq_num s < 2 ^ 32 ->
  sender_inv (state_of (run_op o s))
  /\ window_invariant (state_of (run_op o s))
  /\ (PyDict.len (_send_buffer (state_of (run_op o s))) <= 5)%nat.
Proof.
  intros Hinv Hn.
  assert (sender_inv (state_of (run_op o s))) as Hinv'.
  { destruct o as [data|seq_num|tid|raw]; simpl.
    - by apply sender_inv_send.
    - by apply sender_inv_retransmit.
    - by apply sender_inv_timer_run.
    - by apply sender_inv_recv_iteration. }
  split; [done|]. split; [by apply sender_inv_window|]. apply Hinv'.
Qed.

Lemma sender_ops_preserve_window_invariant_witness :
  sender_inv (state_of (run_op (OpSend [x64]) sender3))
  /\ window_invariant (state_of (run_op (OpSend [x64]) sender3))
  /\ (PyDict.len (_send_buffer (state_of (run_op (OpSend [x64]) sender3))) <= 5)%nat.
Proof.
  apply (sender_ops_preserve_window_invariant sender3 (OpSend [x64])).
  - exact sender_inv_sender3.
  - vm_compute. reflexivity.
Defined.

End SenderClaims.

(** ** The receive loops *)

Lemma sender_recv_none_only n s :
  SWPSender._recv (replicate n None) s = (s, Ok tt).
Proof. induction n as [|n IH]; [done|]. simpl. unfold bind. simpl. apply IH. Qed.

Lemma receiver_recv_iteration_malformed r raw e :
  SWPPacket.from_bytes raw = Raise e ->
  SWPReceiver._recv_iteration (Some raw) r = (r, Raise e).
Proof.
  intros Hraw. unfold SWPReceiver._recv_iteration, bind, lift. by rewrite Hraw.
Qed.

(** The receiver does not test the result of the transport's [recv()]: a
    turn that gets [None] raises [TypeError]; the sender's loop skips it. *)
Example receiver_recv_iteration_none r :
  SWPReceiver._recv_iteration None r = (r, Raise TypeError).
Proof. reflexivity. Qed.

(** C9 as stated fails: a datagram that [from_bytes] rejects ends the loop
    that reads it.  The sender's loop stops with [struct.error] on a 2-byte
    datagram and never sees the valid ACK behind it; the receiver's loop
    stops with [ValueError] on an unknown tag and never sees the DATA
    segment behind it. *)
Lemma recv_loop_ends_on_malformed_datagram :
  SWPSender._recv [Some [x41; x00]; Some [x41; x00; x00; x00; x01]] sender3
  = (sender3, Raise StructError)
  /\ SWPReceiver._recv [Some [x5a; x00; x00; x00; x00];
                        Some [x44; x00; x00; x00; x00; x61]] SWPReceiver.init
     = (SWPReceiver.init, Raise ValueError).
Proof. split; reflexivity. Qed.

(** C9 (amended): the sender's receive loop ignores a "no data" result: any
    number of them leaves it looping with the sender unchanged.  In both
    receive loops a datagram that [from_bytes] rejects is fatal: the loop
    that has run so far without an exception ends at that datagram with the
    exception of [from_bytes], the endpoint is left as it was before the
    datagram, and the results after it are never read. *)
Theorem recv_loops_on_anomalies
    (raw : bytes) (e : exn) (before after : list (option bytes)) (n : nat)
    (s : SWPSender.t) (r : SWPReceiver.t) :
  SWPPacket.from_bytes raw = Raise e ->
  SWPSender._recv (replicate n None) s = (s, Ok tt)
  /\ (outcome (SWPSender._recv before s) = Ok tt ->
      SWPSender._recv (before ++ Some raw :: after) s
      = (state_of (SWPSender._recv before s), Raise e))
  /\ (outcome (SWPReceiver._recv before r) = Ok tt ->
      SWPReceiver._recv (before ++ Some raw :: after) r
      = (state_of (SWPReceiver._recv before r), Raise e)).
Proof.
  intros Hraw. split; [apply sender_recv_none_only|]. split.
  - unfold SWPSender._recv. rewrite for_each_app.
    destruct (for_each before SWPSender._recv_iteration s) as [s' [[]|e']];
      [|discriminate].
    intros _. cbn [for_each]. unfold bind.
    by rewrite (recv_iteration_malformed s' raw e Hraw).
  - unfold SWPReceiver._recv. rewrite for_each_app.
    destruct (for_each before SWPReceiver._recv_iteration r) as [r' [[]|e']];
      [|discriminate].
    intros _. cbn [for_each]. unfold bind.
    by rewrite (receiver_recv_iteration_malformed r' raw e Hraw).
Qed.

Lemma recv_loops_on_anomalies_witness :
  SWPSender._recv (replicate 3 None) sender3 = (sender3, Ok tt)
  /\ (outcome (SWPSender._recv [Some [x41; x00; x00; x00; x00]] sender3) = Ok tt ->
      SWPSender._recv ([Some [x41; x00; x00; x00; x00]]
                       ++ Some [x44; x00; x00] :: [Some [x41; x00; x00; x00; x02]]) sender3
      = (state_of (SWPSender._recv [Some [x41; x00; x00; x00; x00]] sender3),
         Raise StructError))
  /\ (outcome (SWPReceiver._recv [Some [x41; x00; x00; x00; x00]]
                 SWPReceiver.init) = Ok tt ->
      SWPReceiver._recv ([Some [x41; x00; x00; x00; x00]]
                         ++ Some [x44; x00; x00] :: [Some [x41; x00; x00; x00; x02]])
        SWPReceiver.init
      = (state_of (SWPReceiver._recv [Some [x41; x00; x00; x00; x00]]
                     SWPReceiver.init),
         Raise StructError)).
Proof.
  apply (recv_loops_on_anomalies [x44; x00; x00] StructError
           [Some [x41; x00; x00; x00; x00]] [Some [x41; x00; x00; x00; x02]]
           3 sender3 SWPReceiver.init).
  reflexivity.
Defined.

(** * Further properties of the code *)

(** ** Encoding *)

(** X1 ([to_bytes]): encoding raises exactly when the sequence number is
    outside [0, 2^32), whatever the length of the payload; when it returns,
    the result is 5 bytes longer than the payload and ends with it. *)
Theorem to_bytes_fails_iff (p : SWPPacket.t) :
  (is_Raise (SWPPacket.to_bytes p) <-> ~ (0 <= SWPPacket._seq_num p < 2 ^ 32))
  /\ (forall raw, SWPPacket.to_bytes p = Ok raw ->
        length raw = (5 + length (SWPPacket._data p))%nat
        /\ drop 5 raw = SWPPacket._data p).
Proof.
  split.
  - destruct (decide (0 <= SWPPacket._seq_num p < 2 ^ 32)) as [Hin|Hout].
    + destruct (to_bytes_Ok p Hin) as [raw ->]. simpl. tauto.
    + split; [done|]. intros _. unfold SWPPacket.to_bytes, Struct.pack.
      replace (_ && _ && _ && _) with false; [done|].
      symmetry. apply not_true_iff_false. rewrite !andb_true_iff, !Z.leb_le. lia.
  - intros raw. unfold SWPPacket.to_bytes.
    destruct (Struct.pack _ _) as [h|] eqn:Hp; [|done]. intros [= <-].
    apply unpack_pack in Hp as [_ Hlen]. unfold Struct.calcsize in Hlen.
    rewrite length_app, Hlen. split; [done|]. by apply drop_app_length'.
Qed.

(** X2 (decode, then encode): a byte string that [from_bytes] accepts is the
    encoding of the packet it returns. *)
Theorem to_bytes_of_from_bytes (raw : bytes) (p : SWPPacket.t) :
  SWPPacket.from_bytes raw = Ok p -> SWPPacket.to_bytes p = Ok raw.
Proof.
  intros (Hpack & Hdata & _)%from_bytes_Ok_inv.
  unfold SWPPacket.to_bytes. rewrite Hpack, Hdata. by rewrite take_drop.
Qed.

Lemma to_bytes_of_from_bytes_witness :
  SWPPacket.to_bytes (SWPPacket.mk ACK 513 [x7a])
  = Ok [x41; x00; x00; x02; x01; x7a].
Proof.
  apply (to_bytes_of_from_bytes [x41; x00; x00; x02; x01; x7a]). reflexivity.
Defined.

(** ** Segmentation in [send] *)

Lemma for_each_map {S A B} (f : A -> B) (l : list A) (body : B -> M S unit) :
  for_each (map f l) body = for_each l (fun x => body (f x)).
Proof. induction l as [|x l IH]; [done|]. simpl. by rewrite IH. Qed.

Lemma slices_concat (n : nat) (data : bytes) :
  (length data <= n * 1400)%nat ->
  concat (map (fun k => take 1400 (drop (k * 1400) data)) (seq 0 n)) = data.
Proof.
  revert data. induction n as [|n IH]; intros data Hlen.
  - destruct data; [done|simpl in Hlen; lia].
  - rewrite <- cons_seq, <- fmap_S_seq. cbn [map concat].
    change (0 * 1400)%nat with 0%nat. rewrite drop_0.
    transitivity (take 1400 data ++ drop 1400 data); [|apply take_drop].
    f_equal.
    etransitivity; [|apply (IH (drop 1400 data)); rewrite length_drop; lia].
    change (fmap S (seq 0 n)) with (map S (seq 0 n)). rewrite map_map.
    f_equal. apply map_ext. intros k. by rewrite drop_drop.
Qed.

Lemma range_step_count (len : nat) :
  let n := ((len + 1400 - 1) / 1400)%nat in
  (len <= n * 1400)%nat /\ (0 < len -> (n - 1) * 1400 < len)%nat.
Proof.
  intros n. subst n.
  pose proof (Nat.div_mod_eq (len + 1400 - 1) 1400) as Hdm.
  pose proof (Nat.mod_upper_bound (len + 1400 - 1) 1400) as Hm.
  split; [lia|]. intros Hpos. lia.
Qed.

(** X3 (segmentation): the slices that [send] submits are, in order, a
    partition of the data: their concatenation is the data, there are
    ceil(len/1400) of them, none is empty and none exceeds 1400 bytes; so
    empty data submits nothing. *)
Theorem send_submits_partition (data : bytes) :
  SWPSender.send data = for_each (chunks data) SWPSender._send
  /\ concat (chunks data) = data
  /\ length (chunks data) = ((length data + 1399) / 1400)%nat
  /\ Forall (fun c => 1 <= length c <= 1400)%nat (chunks data).
Proof.
  unfold chunks, SWPSender.send, SWPSender.range_step, SWPPacket.MAX_DATA_SIZE.
  destruct (range_step_count (length data)) as [Hup Hlow].
  split; [symmetry; apply for_each_map|]. split; [|split].
  - rewrite map_map. by apply slices_concat.
  - rewrite !length_map, length_seq. f_equal. lia.
  - rewrite map_map. apply Forall_forall. intros c Hc.
    apply list_elem_of_In, in_map_iff in Hc as (k & <- & Hk%in_seq).
    rewrite length_take, length_drop.
    assert (0 < length data)%nat by (destruct (length data); [simpl in Hk|]; lia).
    specialize (Hlow ltac:(done)).
    assert (k * 1400 <= (((length data + 1400 - 1) / 1400) - 1) * 1400)%nat by nia.
    lia.
Qed.

(** ** Submissions and retransmissions *)

Lemma set_fresh {V} (d : PyDict.t V) k v :
  k ∉ PyDict.keys d -> PyDict.set d k v = d ++ [(k, v)].
Proof.
  induction d as [|[k' v'] d IH]; simpl; [done|].
  rewrite not_elem_of_cons. intros [Hne Hnin].
  rewrite decide_False by done. by rewrite IH.
Qed.

Lemma from_bytes_of_to_bytes p raw :
  SWPPacket.to_bytes p = Ok raw -> SWPPacket.from_bytes raw = Ok p.
Proof.
  unfold SWPPacket.to_bytes.
  destruct (Struct.pack _ _) as [h|] eqn:Hp; [|done]. intros [= <-].
  apply unpack_pack in Hp as [Hu Hlen].
  unfold SWPPacket.from_bytes, SWPPacket._HEADER_SIZE.
  rewrite take_app_length', drop_app_length' by done.
  rewrite Hu. simpl. rewrite of_value_value. by destruct p.
Qed.

Lemma sends_spec datas s :
  sender_inv s ->
  SWPSender._next_seq_num s + Z.of_nat (length datas) <= 2 ^ 32 ->
  let room := (SWPSender._SEND_WINDOW_SIZE - PyDict.len (SWPSender._send_buffer s))%nat in
  let ps := numbered (SWPSender._next_seq_num s) (take room datas) in
  let res := for_each datas SWPSender._send s in
  exists raws,
    outcome res = Ok tt
    /\ sender_inv (state_of res)
    /\ encodings ps raws
    /\ SWPSender.llp_sent (state_of res) = SWPSender.llp_sent s ++ raws
    /\ SWPSender._next_seq_num (state_of res)
       = SWPSender._next_seq_num s + Z.of_nat (length (take room datas))
    /\ SWPSender._send_buffer (state_of res)
       = SWPSender._send_buffer s ++ map (fun p => (SWPPacket._seq_num p, p)) ps.
Proof.
  revert s. induction datas as [|d datas IH]; intros s Hinv Hn room ps res.
  - exists []. subst res ps. rewrite take_nil. unfold outcome, state_of. simpl.
    split; [done|]. split; [done|]. split; [constructor|].
    rewrite !app_nil_r. split; [done|]. split; [lia|done].
  - subst res. cbn [for_each]. unfold bind. cbn [length] in Hn.
    destruct (decide (SWPSender._SEND_WINDOW_SIZE
                      <= PyDict.len (SWPSender._send_buffer s))%nat) as [Hfull|Hroom].
    + rewrite send_full by done.
      destruct (IH s Hinv ltac:(lia)) as (raws & Hres); clear IH.
      exists raws. subst ps. replace room with 0%nat in * by (subst room; lia).
      replace (SWPSender._SEND_WINDOW_SIZE - PyDict.len (SWPSender._send_buffer s))%nat
        with 0%nat in Hres by lia.
      rewrite take_0 in *. exact Hres.
    + pose proof (sender_inv_send s d Hinv ltac:(lia)) as [_ Hinv1].
      rewrite send_room in * by lia.
      pose proof (inv_next _ Hinv) as Hnext.
      destruct (to_bytes_Ok (SWPPacket.mk DATA (SWPSender._next_seq_num s) d))
        as [raw Hraw]; [simpl; lia|].
      rewrite Hraw in *. unfold state_of in Hinv1. cbn [fst] in Hinv1.
      destruct (inv_fresh_key s Hinv) as [Hfb Hft].
      set (s1 := SWPSender.mk _ _ _ _ _) in *.
      assert (PyDict.len (SWPSender._send_buffer s1)
              = S (PyDict.len (SWPSender._send_buffer s))) as Hlen1.
      { subst s1. cbn [SWPSender._send_buffer]. rewrite len_set.
        by rewrite decide_False. }
      destruct (IH s1 Hinv1) as (raws & Hok & Hinv' & Henc & Hsent & Hn' & Hbuf).
      { subst s1. cbn [SWPSender._next_seq_num]. lia. }
      clear IH. exists (raw :: raws).
      assert (room = S (SWPSender._SEND_WINDOW_SIZE
                        - PyDict.len (SWPSender._send_buffer s1))) as Hroom1
        by (subst room; lia).
      subst ps. rewrite Hroom1. cbn [take numbered map length].
      split; [done|]. split; [done|]. split; [|split; [|split]].
      * constructor; [done|]. exact Henc.
      * rewrite Hsent. subst s1. cbn [SWPSender.llp_sent].
        by rewrite <- app_assoc.
      * rewrite Hn'. subst s1. cbn [SWPSender._next_seq_num]. lia.
      * rewrite Hbuf. subst s1. cbn [SWPSender._send_buffer SWPSender._next_seq_num].
        rewrite set_fresh by done. by rewrite <- app_assoc.
Qed.

(** X4 ([send] and the window): from a state where the invariant holds,
    [send] returns normally and transmits exactly the first
    [5 - outstanding] slices of the data, in order, as DATA packets with
    consecutive sequence numbers starting at the counter; the counter moves
    by that many, these packets are appended to [_send_buffer], and the
    remaining slices leave no trace. *)
Theorem send_transmits_window_prefix (s : SWPSender.t) (data : bytes) :
  sender_inv s ->
  SWPSender._next_seq_num s + Z.of_nat (length (chunks data)) <= 2 ^ 32 ->
  let room := (SWPSender._SEND_WINDOW_SIZE - PyDict.len (SWPSender._send_buffer s))%nat in
  let ps := numbered (SWPSender._next_seq_num s) (take room (chunks data)) in
  let res := SWPSender.send data s in
  exists raws,
    outcome res = Ok tt
    /\ encodings ps raws
    /\ SWPSender.llp_sent (state_of res) = SWPSender.llp_sent s ++ raws
    /\ SWPSender._next_seq_num (state_of res)
       = SWPSender._next_seq_num s + Z.of_nat (length (take room (chunks data)))
    /\ SWPSender._send_buffer (state_of res)
       = SWPSender._send_buffer s ++ map (fun p => (SWPPacket._seq_num p, p)) ps.
Proof.
  intros Hinv Hn room ps res. subst res.
  replace (SWPSender.send data) with (for_each (chunks data) SWPSender._send).
  2:{ unfold chunks, SWPSender.send. apply for_each_map. }
  destruct (sends_spec (chunks data) s Hinv Hn) as (raws & Hok & _ & Henc & Hsent & Hn' & Hbuf).
  exists raws. done.
Qed.

Lemma send_transmits_window_prefix_witness :
  let s := sender3 in
  let data := replicate 4000 x61 in
  let room := (SWPSender._SEND_WINDOW_SIZE - PyDict.len (SWPSender._send_buffer s))%nat in
  let ps := numbered (SWPSender._next_seq_num s) (take room (chunks data)) in
  let res := SWPSender.send data s in
  exists raws,
    outcome res = Ok tt
    /\ encodings ps raws
    /\ SWPSender.llp_sent (state_of res) = SWPSender.llp_sent s ++ raws
    /\ SWPSender._next_seq_num (state_of res)
       = SWPSender._next_seq_num s + Z.of_nat (length (take room (chunks data)))
    /\ SWPSender._send_buffer (state_of res)
       = SWPSender._send_buffer s ++ map (fun p => (SWPPacket._seq_num p, p)) ps.
Proof.
  apply (send_transmits_window_prefix sender3 (replicate 4000 x61)).
  - exact sender_inv_sender3.
  - vm_compute. discriminate.
Defined.

(** X5 ([_retransmit]): where the invariant holds, [_retransmit] returns
    normally and never changes [_send_buffer] or the counter.  For a key
    that is outstanding it transmits one datagram, the encoding of the
    stored packet (which decodes to that packet), cancels the timer of the
    key and arms a new one; for any other key it does nothing. *)
Theorem retransmit_resends_stored_packet (s : SWPSender.t) (k : Z) :
  sender_inv s ->
  let res := SWPSender._retransmit k s in
  outcome res = Ok tt
  /\ SWPSender._send_buffer (state_of res) = SWPSender._send_buffer s
  /\ SWPSender._next_seq_num (state_of res) = SWPSender._next_seq_num s
  /\ match PyDict.get (SWPSender._send_buffer s) k with
     | Some p =>
         exists raw old,
           SWPPacket.to_bytes p = Ok raw
           /\ SWPPacket.from_bytes raw = Ok p
           /\ SWPSender.llp_sent (state_of res) = SWPSender.llp_sent s ++ [raw]
           /\ PyDict.get (SWPSender._timers s) k = Some old
           /\ SWPSender.timer_objs (state_of res) !! old = Some (mkTimer k true)
           /\ exists new, new <> old
                /\ PyDict.get (SWPSender._timers (state_of res)) k = Some new
                /\ live_timer (state_of res) new k
     | None => state_of res = s
     end.
Proof.
  intros Hinv res. subst res.
  destruct (PyDict.get (SWPSender._send_buffer s) k) as [p|] eqn:Hp.
  2:{ by rewrite retransmit_absent. }
  pose proof (inv_packet _ Hinv _ _ Hp) as [Hseq Hrange].
  pose proof (inv_next _ Hinv) as Hn.
  destruct (to_bytes_Ok p) as [raw Hraw]; [lia|].
  destruct (proj1 (inv_keys _ Hinv k)) as [old Hold]; [by rewrite Hp; eauto|].
  pose proof (inv_timer_live _ Hinv _ _ Hold) as Hlive. unfold live_timer in Hlive.
  rewrite (retransmit_present s k p raw old) by done.
  unfold outcome, state_of. simpl.
  split; [done|]. split; [done|]. split; [done|].
  exists raw, old. split; [done|]. split; [by apply from_bytes_of_to_bytes|].
  split; [done|]. split; [done|]. split.
  - apply lookup_app_l_Some. by rewrite list_lookup_alter_eq, Hlive.
  - exists (length (SWPSender.timer_objs s)). split; [|split].
    + apply lookup_lt_Some in Hlive. lia.
    + rewrite get_set. by rewrite decide_True.
    + unfold live_timer. simpl. apply lookup_snoc_Some. right.
      by rewrite length_alter.
Qed.

Lemma retransmit_resends_stored_packet_witness :
  let res := SWPSender._retransmit 1 sender3 in
  outcome res = Ok tt
  /\ SWPSender._send_buffer (state_of res) = SWPSender._send_buffer sender3
  /\ SWPSender._next_seq_num (state_of res) = SWPSender._next_seq_num sender3
  /\ match PyDict.get (SWPSender._send_buffer sender3) 1 with
     | Some p =>
         exists raw old,
           SWPPacket.to_bytes p = Ok raw
           /\ SWPPacket.from_bytes raw = Ok p
           /\ SWPSender.llp_sent (state_of res) = SWPSender.llp_sent sender3 ++ [raw]
           /\ PyDict.get (SWPSender._timers sender3) 1 = Some old
           /\ SWPSender.timer_objs (state_of res) !! old = Some (mkTimer 1 true)
           /\ exists new, new <> old
                /\ PyDict.get (SWPSender._timers (state_of res)) 1 = Some new
                /\ live_timer (state_of res) new 1
     | None => state_of res = sender3
     end.
Proof. apply (retransmit_resends_stored_packet sender3 1), sender_inv_sender3. Defined.

(** ** Acknowledgements *)

Lemma ack_loop_above N ks s :
  (forall k, k ∈ ks -> N < k) -> for_each ks (SWPSender.ack_one N) s = (s, Ok tt).
Proof.
  induction ks as [|k ks IH]; intros Hks; [done|].
  cbn [for_each]. unfold bind. rewrite ack_one_above by (apply Hks, list_elem_of_here).
  apply IH. intros k' Hk'. by apply Hks, list_elem_of_further.
Qed.

Lemma timer_run_finished s tid T :
  SWPSender.timer_objs s !! tid = Some T -> finished T = true ->
  SWPSender.timer_run tid s = (s, Ok tt).
Proof.
  intros HT Hfin. unfold SWPSender.timer_run, bind, get_state. simpl.
  rewrite HT, Hfin. unfold ret. by rewrite (cancel_finished s tid T).
Qed.

Lemma timer_run_live s tid T :
  sender_inv s ->
  SWPSender.timer_objs s !! tid = Some T -> finished T = false ->
  SWPSender.timer_run tid s = SWPSender._retransmit (timer_arg T) s.
Proof.
  intros Hinv HT Hfin. unfold SWPSender.timer_run, bind, get_state. simpl.
  rewrite HT, Hfin.
  pose proof (inv_live_timer _ Hinv _ _ HT Hfin) as Hold.
  destruct (proj2 (inv_keys _ Hinv (timer_arg T))) as [p Hp]; [by rewrite Hold; eauto|].
  pose proof (inv_packet _ Hinv _ _ Hp) as [Hseq Hrange].
  pose proof (inv_next _ Hinv) as Hn.
  destruct (to_bytes_Ok p) as [raw Hraw]; [lia|].
  rewrite (retransmit_present s _ p raw tid) by done.
  lazy beta iota. erewrite cancel_finished; [done| |].
  - simpl. apply lookup_app_l_Some. rewrite list_lookup_alter_eq, HT. done.
  - done.
Qed.

(** X6 (no retransmission after an ACK): once the receive loop has processed
    an ACK with sequence number [N], a call of [_retransmit] for any
    [k <= N] transmits nothing and changes nothing, and so does the expiry
    of the timer that was armed for [k]. *)
Theorem acked_segment_is_not_retransmitted
    (s : SWPSender.t) (raw : bytes) (p : SWPPacket.t) (k : Z) :
  sender_inv s ->
  SWPPacket.from_bytes raw = Ok p -> SWPPacket._type p = ACK ->
  k <= SWPPacket._seq_num p ->
  let s' := state_of (SWPSender._recv_iteration (Some raw) s) in
  SWPSender._retransmit k s' = (s', Ok tt)
  /\ forall tid, PyDict.get (SWPSender._timers s) k = Some tid ->
       SWPSender.timer_run tid s' = (s', Ok tt).
Proof.
  intros Hinv Hraw Hty Hk s'. subst s'.
  rewrite (recv_iteration_decoded s raw p Hraw). rewrite decide_True by done.
  destruct (process_ack_inv (SWPPacket._seq_num p) s Hinv)
    as (s' & Hs' & _ & _ & _ & Hb & _ & Ho).
  rewrite Hs'. unfold state_of. simpl. split.
  - apply retransmit_absent. rewrite Hb. by rewrite decide_True.
  - intros tid Htid.
    pose proof (inv_timer_live _ Hinv _ _ Htid) as Hl. unfold live_timer in Hl.
    apply (timer_run_finished s' tid (mkTimer k true)); [|done].
    rewrite (Ho tid _ Hl). simpl. by rewrite decide_True.
Qed.

Lemma acked_segment_is_not_retransmitted_witness :
  let s' := state_of (SWPSender._recv_iteration (Some [x41; x00; x00; x00; x01]) sender3) in
  SWPSender._retransmit 0 s' = (s', Ok tt)
  /\ forall tid, PyDict.get (SWPSender._timers sender3) 0 = Some tid ->
       SWPSender.timer_run tid s' = (s', Ok tt).
Proof.
  apply (acked_segment_is_not_retransmitted sender3 [x41; x00; x00; x00; x01]
           (SWPPacket.mk ACK 1 []) 0).
  - exact sender_inv_sender3.
  - reflexivity.
  - reflexivity.
  - simpl. lia.
Defined.

(** X7 (stale ACK): an ACK whose sequence number is below every outstanding
    key, and so any ACK that arrives while nothing is outstanding, leaves the
    sender exactly as it was and the loop running. *)
Theorem stale_ack_changes_nothing (s : SWPSender.t) (raw : bytes) (p : SWPPacket.t) :
  SWPPacket.from_bytes raw = Ok p -> SWPPacket._type p = ACK ->
  (forall k, k ∈ PyDict.keys (SWPSender._send_buffer s) -> SWPPacket._seq_num p < k) ->
  SWPSender._recv_iteration (Some raw) s = (s, Ok tt).
Proof.
  intros Hraw Hty Hkeys. rewrite (recv_iteration_decoded s raw p Hraw).
  rewrite decide_True by done. unfold SWPSender.process_ack, bind, get_state.
  by apply ack_loop_above.
Qed.

Lemma stale_ack_changes_nothing_witness :
  SWPSender._recv_iteration (Some [x41; x00; x00; x00; x07]) SWPSender.init
  = (SWPSender.init, Ok tt).
Proof.
  apply (stale_ack_changes_nothing SWPSender.init [x41; x00; x00; x00; x07]
           (SWPPacket.mk ACK 7 [])).
  - reflexivity.
  - reflexivity.
  - intros k Hk. by apply not_elem_of_nil in Hk.
Defined.

(** X8 (ACKs are cumulative and idempotent): after an ACK with sequence
    number [N] has been processed, an ACK with any sequence number
    [M <= N], the same ACK again included, changes nothing. *)
Theorem older_ack_after_ack_changes_nothing
    (s : SWPSender.t) (raw raw' : bytes) (p p' : SWPPacket.t) :
  sender_inv s ->
  SWPPacket.from_bytes raw = Ok p -> SWPPacket._type p = ACK ->
  SWPPacket.from_bytes raw' = Ok p' -> SWPPacket._type p' = ACK ->
  SWPPacket._seq_num p' <= SWPPacket._seq_num p ->
  let s' := state_of (SWPSender._recv_iteration (Some raw) s) in
  SWPSender._recv_iteration (Some raw') s' = (s', Ok tt).
Proof.
  intros Hinv Hraw Hty Hraw' Hty' Hle s'. subst s'.
  rewrite (recv_iteration_decoded s raw p Hraw). rewrite decide_True by done.
  destruct (process_ack_inv (SWPPacket._seq_num p) s Hinv)
    as (s' & Hs' & _ & _ & _ & Hb & _ & _).
  rewrite Hs'. unfold state_of. cbn [fst].
  rewrite (recv_iteration_decoded s' raw' p' Hraw'). rewrite decide_True by done.
  unfold SWPSender.process_ack, bind, get_state. apply ack_loop_above.
  intros k Hk%get_is_Some_iff. rewrite Hb in Hk.
  case_decide; [by destruct Hk|]. lia.
Qed.

Lemma older_ack_after_ack_changes_nothing_witness :
  let s' := state_of (SWPSender._recv_iteration (Some [x41; x00; x00; x00; x01]) sender3) in
  SWPSender._recv_iteration (Some [x41; x00; x00; x00; x00]) s' = (s', Ok tt).
Proof.
  apply (older_ack_after_ack_changes_nothing sender3
           [x41; x00; x00; x00; x01] [x41; x00; x00; x00; x00]
           (SWPPacket.mk ACK 1 []) (SWPPacket.mk ACK 0 [])).
  - exact sender_inv_sender3.
  - reflexivity.
  - reflexivity.
  - reflexivity.
  - reflexivity.
  - simpl. lia.
Defined.

(** ** What the sender puts on the wire *)

Lemma wire_inv_retransmit s k :
  sender_inv s -> sender_wire_inv s ->
  sender_wire_inv (state_of (SWPSender._retransmit k s)).
Proof.
  intros Hinv [Hwire Hbuf].
  destruct (PyDict.get (SWPSender._send_buffer s) k) as [p|] eqn:Hp.
  2:{ by rewrite retransmit_absent. }
  pose proof (inv_packet _ Hinv _ _ Hp) as [Hseq Hrange].
  pose proof (inv_next _ Hinv) as Hn.
  destruct (to_bytes_Ok p) as [raw Hraw]; [lia|].
  destruct (proj1 (inv_keys _ Hinv k)) as [old Hold]; [by rewrite Hp; eauto|].
  rewrite (retransmit_present s k p raw old) by done.
  unfold state_of. split; simpl.
  - intros raw' [Hin| ->%list_elem_of_singleton]%elem_of_app; [by apply Hwire|].
    exists p. split; [by apply from_bytes_of_to_bytes|].
    split; [by apply (Hbuf k)|]. lia.
  - intros k' p' Hp'. destruct (Hbuf k' p' Hp') as (Hty & raw' & Hraw' & Hin).
    split; [done|]. exists raw'. split; [done|]. apply elem_of_app. by left.
Qed.

Lemma wire_inv_step s o :
  sender_inv s -> SWPSender._next_seq_num s < 2 ^ 32 -> sender_wire_inv s ->
  sender_wire_inv (state_of (run_op o s)).
Proof.
  intros Hinv Hnext Hw. pose proof Hw as [Hwire Hbuf].
  destruct o as [data|k|tid|raw]; simpl.
  - destruct (decide (SWPSender._SEND_WINDOW_SIZE
                      <= PyDict.len (SWPSender._send_buffer s))%nat) as [Hfull|Hroom].
    { by rewrite send_full. }
    rewrite send_room by lia.
    pose proof (inv_next _ Hinv) as Hn.
    destruct (to_bytes_Ok (SWPPacket.mk DATA (SWPSender._next_seq_num s) data))
      as [raw Hraw]; [simpl; lia|].
    rewrite Hraw. unfold state_of. split; simpl.
    + intros raw' [Hin| ->%list_elem_of_singleton]%elem_of_app.
      * destruct (Hwire raw' Hin) as (p & ? & ? & ?). exists p.
        split; [done|]. split; [done|]. lia.
      * eexists. split; [by apply from_bytes_of_to_bytes|]. simpl.
        split; [done|]. lia.
    + intros k p. rewrite get_set. case_decide.
      * intros [= <-]. split; [done|]. exists raw. split; [done|].
        apply elem_of_app. right. apply list_elem_of_here.
      * intros Hp. destruct (Hbuf k p Hp) as (Hty & raw' & Hraw' & Hin).
        split; [done|]. exists raw'. split; [done|]. apply elem_of_app. by left.
  - by apply wire_inv_retransmit.
  - destruct (SWPSender.timer_objs s !! tid) as [T|] eqn:HT.
    2:{ unfold SWPSender.timer_run, bind, get_state. simpl. by rewrite HT. }
    destruct (finished T) eqn:Hfin.
    + by rewrite (timer_run_finished s tid T).
    + rewrite (timer_run_live s tid T) by done. by apply wire_inv_retransmit.
  - destruct raw as [raw|]; [|done].
    destruct (SWPPacket.from_bytes raw) as [p|e] eqn:Hraw.
    2:{ by rewrite (recv_iteration_malformed s raw e Hraw). }
    rewrite (recv_iteration_decoded s raw p Hraw). case_decide; [|done].
    destruct (process_ack_inv (SWPPacket._seq_num p) s Hinv)
      as (s' & Hs' & _ & Hn' & Hsent' & Hb & _ & _).
    rewrite Hs'. unfold state_of. split; simpl.
    + intros raw'. rewrite Hsent', Hn'. apply Hwire.
    + intros k p'. rewrite Hb, Hsent'. case_decide; [done|]. apply Hbuf.
Qed.

(** X9 (the sender's datagrams): in every state the sender reaches from its
    initial state in at most 2^32 operations, each datagram it has handed to
    the transport decodes to a DATA packet with a sequence number below the
    counter (it never sends an ACK or an undecodable datagram), and each
    outstanding packet is a DATA packet that has been transmitted. *)
Theorem sender_transmits_only_numbered_data (ops : list sender_op) :
  Z.of_nat (length ops) <= 2 ^ 32 ->
  sender_wire_inv (run_ops ops SWPSender.init).
Proof.
  intros Hlen.
  assert (forall s, sender_inv s -> sender_wire_inv s ->
            SWPSender._next_seq_num s + Z.of_nat (length ops) <= 2 ^ 32 ->
            sender_wire_inv (run_ops ops s)) as Hrun.
  { clear Hlen. induction ops as [|o ops IH]; intros s Hinv Hw Hn; [done|].
    simpl in *. apply IH.
    - destruct o as [data|seq_num|tid|raw]; simpl.
      + apply sender_inv_send; [done|lia].
      + by apply sender_inv_retransmit.
      + by apply sender_inv_timer_run.
      + by apply sender_inv_recv_iteration.
    - apply wire_inv_step; [done|lia|done].
    - pose proof (run_op_next_seq_num s o Hinv). lia. }
  apply Hrun; [apply sender_inv_init| |simpl; lia].
  split; simpl.
  - intros raw Hin. by apply not_elem_of_nil in Hin.
  - intros k p Hp. done.
Qed.

Lemma sender_transmits_only_numbered_data_witness :
  sender_wire_inv
    (run_ops [OpSend [x61]; OpSend [x62]; OpTimer 0%nat;
              OpRecv (Some [x41; x00; x00; x00; x00]); OpRetransmit 1]
       SWPSender.init).
Proof.
  apply (sender_transmits_only_numbered_data
           [OpSend [x61]; OpSend [x62]; OpTimer 0%nat;
            OpRecv (Some [x41; x00; x00; x00; x00]); OpRetransmit 1]).
  simpl. lia.
Defined.

(** ** The receiver over a whole run *)

Lemma arrived_mono inputs inputs' i d :
  (forall x, x ∈ inputs -> x ∈ inputs') -> arrived inputs i d -> arrived inputs' i d.
Proof. intros Hsub (raw & Hin & Hraw). exists raw. auto. Qed.

Lemma receiver_inv_mono inputs inputs' r :
  (forall x, x ∈ inputs -> x ∈ inputs') ->
  receiver_inv inputs r -> receiver_inv inputs' r.
Proof.
  intros Hsub Hinv. split.
  - apply Hinv.
  - apply Hinv.
  - intros i d Hd. eapply arrived_mono; [done|]. by apply (rinv_ready _ _ Hinv).
  - intros k d Hd. eapply arrived_mono; [done|]. by apply (rinv_buffer _ _ Hinv).
  - intros raw Hraw. destruct (rinv_acks _ _ Hinv raw Hraw) as (s & ? & [d Hd] & ?).
    exists s. split; [done|]. split; [|done]. exists d. by eapply arrived_mono.
Qed.

Lemma receiver_inv_init : receiver_inv [] SWPReceiver.init.
Proof.
  split; simpl.
  - intros k [? Hk]. by rewrite lookup_empty in Hk.
  - done.
  - intros i d Hd. by rewrite lookup_nil in Hd.
  - intros k d Hk. by rewrite lookup_empty in Hk.
  - intros raw Hin. by apply not_elem_of_nil in Hin.
Qed.

Lemma receiver_inv_accept inputs r raw s d :
  receiver_inv inputs r ->
  SWPPacket.from_bytes raw = Ok (SWPPacket.mk DATA s d) ->
  SWPReceiver.in_window r s = true ->
  receiver_inv (inputs ++ [Some raw])
    (state_of (SWPReceiver._recv_iteration (Some raw) r)).
Proof.
  intros Hinv Hraw Hw. rewrite (recv_iteration_data r raw s d Hraw), Hw.
  pose proof (from_bytes_seq_range _ _ Hraw) as Hs. simpl in Hs.
  destruct (ack_to_bytes s Hs) as (ack & Hack & Hfrom & _). rewrite Hack.
  apply in_window_spec in Hw. unfold SWPReceiver._RECV_WINDOW_SIZE in Hw.
  set (r1 := SWPReceiver.mk _ _ _ _).
  destruct (process_buffer_run r1) as (ds & Hrun & Hnone & Hexp & Hready & Hbuf & Hsent).
  set (r' := state_of (SWPReceiver._process_buffer r1)) in *.
  subst r1. simpl in Hrun, Hnone, Hexp, Hready, Hbuf, Hsent.
  pose proof (rinv_count _ _ Hinv) as Hcount.
  assert (arrived (inputs ++ [Some raw]) s d) as Harr_new.
  { exists raw. split; [|done]. apply elem_of_app. right. apply list_elem_of_here. }
  assert (forall k d', <[s:=d]> (SWPReceiver._buffer r) !! k = Some d' ->
            arrived (inputs ++ [Some raw]) k d'
            /\ SWPReceiver._expected_seq_num r <= k
               < SWPReceiver._expected_seq_num r + 5) as Hins.
  { intros k d'. rewrite lookup_insert. case_decide as Hk.
    - intros [= <-]. subst k. done.
    - intros Hd'. split.
      + eapply arrived_mono; [|by apply (rinv_buffer _ _ Hinv)].
        intros x Hx. apply elem_of_app. by left.
      + pose proof (rinv_keys _ _ Hinv k ltac:(eauto)) as Hr.
        unfold SWPReceiver._RECV_WINDOW_SIZE in Hr. lia. }
  assert (forall k, is_Some (SWPReceiver._buffer r' !! k) \/
                    SWPReceiver._expected_seq_num r <= k
                    < SWPReceiver._expected_seq_num r' <->
                    is_Some (<[s:=d]> (SWPReceiver._buffer r) !! k) \/
                    SWPReceiver._expected_seq_num r <= k
                    < SWPReceiver._expected_seq_num r') as Hsplit.
  { intros k. rewrite Hbuf. case_decide; [|done]. split; auto. }
  split.
  - intros k Hk. unfold SWPReceiver._RECV_WINDOW_SIZE.
    rewrite Hbuf in Hk. case_decide as Hrange; [by destruct Hk|].
    destruct Hk as [d' Hd']. destruct (Hins k d' Hd') as [_ Hk].
    assert (k <> SWPReceiver._expected_seq_num r').
    { intros ->. rewrite Hexp in Hd'. congruence. }
    lia.
  - rewrite Hready, length_app. lia.
  - intros i d'. rewrite Hready. intros [Hold|[Hge Hnew]]%lookup_app_Some.
    + eapply arrived_mono; [|by apply (rinv_ready _ _ Hinv)].
      intros x Hx. apply elem_of_app. by left.
    + apply Hrun in Hnew. apply Hins in Hnew as [Harr _].
      replace (Z.of_nat i)
        with (SWPReceiver._expected_seq_num r
              + Z.of_nat (i - length (SWPReceiver._ready_data r))) by lia.
      done.
  - intros k d'. rewrite Hbuf. case_decide; [done|]. intros Hd'.
    by apply Hins in Hd' as [? _].
  - intros raw'. rewrite Hsent.
    assert (forall s0, is_Some (<[s:=d]> (SWPReceiver._buffer r) !! s0) ->
              0 <= s0 < SWPReceiver._expected_seq_num r'
              \/ is_Some (SWPReceiver._buffer r' !! s0)) as Hheld.
    { intros s0 [d0 Hd0]. rewrite Hbuf. destruct (Hins s0 d0 Hd0) as [_ Hr].
      case_decide; [left; lia|right; eauto]. }
    intros [Hold| ->%list_elem_of_singleton]%elem_of_app.
    + destruct (rinv_acks _ _ Hinv raw' Hold) as (s0 & Hfrom0 & [d0 Hd0] & Hheld0).
      exists s0. split; [done|]. split.
      * exists d0. eapply arrived_mono; [|done]. intros x Hx. apply elem_of_app. by left.
      * destruct Hheld0 as [Hlt|Hin]; [left; lia|].
        apply Hheld. rewrite lookup_insert. case_decide; eauto.
    + exists s. split; [done|]. split; [by exists d|].
      apply Hheld. rewrite lookup_insert_eq. eauto.
Qed.

Lemma receiver_inv_step inputs r raw :
  receiver_inv inputs r ->
  receiver_inv (inputs ++ [raw]) (state_of (SWPReceiver._recv_iteration raw r)).
Proof.
  intros Hinv.
  assert (receiver_inv (inputs ++ [raw]) r) as Hsame.
  { eapply receiver_inv_mono; [|done]. intros x Hx. apply elem_of_app. by left. }
  destruct raw as [raw|]; [|done].
  destruct (SWPPacket.from_bytes raw) as [[ty s d]|e] eqn:Hraw.
  2:{ by rewrite (receiver_recv_iteration_malformed r raw e Hraw). }
  destruct ty.
  - destruct (SWPReceiver.in_window r s) eqn:Hw.
    + by apply (receiver_inv_accept inputs r raw s d).
    + by rewrite (recv_iteration_data r raw s d Hraw), Hw.
  - unfold SWPReceiver._recv_iteration, bind, lift. by rewrite Hraw.
Qed.

Lemma receiver_inv_run inputs :
  receiver_inv inputs (state_of (SWPReceiver._recv inputs SWPReceiver.init)).
Proof.
  assert (forall rest seen r, receiver_inv seen r ->
            receiver_inv (seen ++ rest)
              (state_of (for_each rest SWPReceiver._recv_iteration r))) as Hgen.
  { induction rest as [|x rest IH]; intros seen r Hinv.
    - by rewrite app_nil_r.
    - pose proof (receiver_inv_step seen r x Hinv) as Hstep.
      cbn [for_each]. unfold bind.
      destruct (SWPReceiver._recv_iteration x r) as [r1 [[]|e]].
      + rewrite (cons_middle x seen rest), app_assoc. by apply IH.
      + eapply receiver_inv_mono; [|exact Hstep].
        intros y Hy. rewrite (cons_middle x seen rest), app_assoc.
        apply elem_of_app. by left. }
  apply (Hgen inputs [] SWPReceiver.init receiver_inv_init).
Qed.

(** X10 (bounded reorder buffer): whatever the transport has delivered to a
    receiver since its creation, its reorder buffer holds only keys strictly
    between the cursor and the end of the window, hence at most 4 payloads;
    the cursor itself is never left in the buffer. *)
Theorem receiver_buffer_stays_in_window (inputs : list (option bytes)) :
  let r := state_of (SWPReceiver._recv inputs SWPReceiver.init) in
  (forall k, is_Some (SWPReceiver._buffer r !! k) ->
     SWPReceiver._expected_seq_num r < k < SWPReceiver._expected_seq_num r + 5)
  /\ (size (SWPReceiver._buffer r) <= 4)%nat.
Proof.
  intros r. pose proof (receiver_inv_run inputs) as Hinv. fold r in Hinv.
  pose proof (rinv_keys _ _ Hinv) as Hkeys.
  unfold SWPReceiver._RECV_WINDOW_SIZE in Hkeys. split; [done|].
  set (e := SWPReceiver._expected_seq_num r) in *.
  assert (dom (SWPReceiver._buffer r) ⊆ list_to_set [e + 1; e + 2; e + 3; e + 4])
    as Hdom.
  { intros k Hk%elem_of_dom. apply Hkeys in Hk. apply elem_of_list_to_set.
    rewrite !elem_of_cons. lia. }
  apply subseteq_size in Hdom. rewrite size_dom in Hdom.
  rewrite size_list_to_set in Hdom; [done|].
  repeat (apply NoDup_cons; split; [rewrite ?elem_of_cons, ?elem_of_nil; lia|]).
  apply NoDup_nil_2.
Qed.

(** X11 (in order, exactly once, no gaps): whatever the transport has
    delivered to a receiver since its creation, the cursor equals the number
    of payloads put on the delivery queue, and the payload at position [i]
    of the queue is the payload of a DATA datagram that arrived with
    sequence number [i]. *)
Theorem receiver_delivers_in_sequence (inputs : list (option bytes)) :
  let r := state_of (SWPReceiver._recv inputs SWPReceiver.init) in
  Z.of_nat (length (SWPReceiver._ready_data r)) = SWPReceiver._expected_seq_num r
  /\ forall (i : nat) d, SWPReceiver._ready_data r !! i = Some d ->
       arrived inputs (Z.of_nat i) d.
Proof.
  intros r. pose proof (receiver_inv_run inputs) as Hinv. fold r in Hinv.
  split; apply Hinv.
Qed.

(** X12 (the receiver's datagrams): whatever the transport has delivered to
    a receiver since its creation, every datagram the receiver has sent is
    an ACK with an empty payload whose sequence number is that of a DATA
    datagram that arrived, and the segment it acknowledges is delivered or
    held in the reorder buffer. *)
Theorem receiver_acks_only_held_segments (inputs : list (option bytes)) :
  let r := state_of (SWPReceiver._recv inputs SWPReceiver.init) in
  Forall (fun raw =>
            exists s, SWPPacket.from_bytes raw = Ok (SWPPacket.mk ACK s [])
                      /\ (exists d, arrived inputs s d)
                      /\ (0 <= s < SWPReceiver._expected_seq_num r
                          \/ is_Some (SWPReceiver._buffer r !! s)))
         (SWPReceiver.llp_sent r).
Proof.
  intros r. pose proof (receiver_inv_run inputs) as Hinv. fold r in Hinv.
  apply Forall_forall. apply Hinv.
Qed.

(** X13 (one turn of the receiver): from any state, a turn of the receive
    loop never removes anything from the delivery queue, moves the cursor
    forward by exactly the number of payloads it appends to the queue, and
    sends at most one datagram. *)
Theorem receiver_turn_is_monotone (r : SWPReceiver.t) (raw : option bytes) :
  let r' := state_of (SWPReceiver._recv_iteration raw r) in
  (exists ds, SWPReceiver._ready_data r' = SWPReceiver._ready_data r ++ ds
              /\ SWPReceiver._expected_seq_num r'
                 = SWPReceiver._expected_seq_num r + Z.of_nat (length ds))
  /\ (SWPReceiver.llp_sent r' = SWPReceiver.llp_sent r
      \/ exists ack, SWPReceiver.llp_sent r' = SWPReceiver.llp_sent r ++ [ack]).
Proof.
  intros r'. subst r'.
  assert ((exists ds, SWPReceiver._ready_data r = SWPReceiver._ready_data r ++ ds
              /\ SWPReceiver._expected_seq_num r
                 = SWPReceiver._expected_seq_num r + Z.of_nat (length ds))
          /\ (SWPReceiver.llp_sent r = SWPReceiver.llp_sent r
              \/ exists ack, SWPReceiver.llp_sent r = SWPReceiver.llp_sent r ++ [ack]))
    as Hsame.
  { split; [|by left]. exists []. rewrite app_nil_r. simpl. split; [done|lia]. }
  destruct raw as [raw|]; [|done].
  destruct (SWPPacket.from_bytes raw) as [[ty s d]|e] eqn:Hraw.
  2:{ by rewrite (receiver_recv_iteration_malformed r raw e Hraw). }
  destruct ty.
  2:{ unfold SWPReceiver._recv_iteration, bind, lift. by rewrite Hraw. }
  rewrite (recv_iteration_data r raw s d Hraw).
  destruct (SWPReceiver.in_window r s); [|done].
  destruct (SWPPacket.to_bytes (SWPPacket.mk ACK s [])) as [ack|e].
  - set (r1 := SWPReceiver.mk _ _ _ _).
    destruct (process_buffer_run r1) as (ds & _ & _ & Hexp & Hready & _ & Hsent).
    split; [by exists ds|]. right. by exists ack.
  - unfold state_of. simpl. split; [|by left].
    exists []. rewrite app_nil_r. simpl. split; [done|lia].
Qed.

(** X14 (datagrams of the other kind): the sender's loop ignores a DATA
    datagram and the receiver's loop ignores an ACK datagram: the endpoint
    is unchanged, nothing is sent, and the loop goes on. *)
Theorem other_kind_is_ignored
    (raw : bytes) (p : SWPPacket.t) (s : SWPSender.t) (r : SWPReceiver.t) :
  SWPPacket.from_bytes raw = Ok p ->
  (SWPPacket._type p = DATA -> SWPSender._recv_iteration (Some raw) s = (s, Ok tt))
  /\ (SWPPacket._type p = ACK -> SWPReceiver._recv_iteration (Some raw) r = (r, Ok tt)).
Proof.
  intros Hraw. split; intros Hty.
  - rewrite (recv_iteration_decoded s raw p Hraw). rewrite decide_False; [done|].
    by rewrite Hty.
  - unfold SWPReceiver._recv_iteration, bind, lift. rewrite Hraw.
    rewrite decide_False; [done|]. by rewrite Hty.
Qed.

Lemma other_kind_is_ignored_witness :
  (SWPPacket._type (SWPPacket.mk DATA 1 [x61]) = DATA ->
   SWPSender._recv_iteration (Some [x44; x00; x00; x00; x01; x61]) sender3
   = (sender3, Ok tt))
  /\ (SWPPacket._type (SWPPacket.mk DATA 1 [x61]) = ACK ->
      SWPReceiver._recv_iteration (Some [x44; x00; x00; x00; x01; x61])
        SWPReceiver.init
      = (SWPReceiver.init, Ok tt)).
Proof.
  apply (other_kind_is_ignored [x44; x00; x00; x00; x01; x61]
           (SWPPacket.mk DATA 1 [x61]) sender3 SWPReceiver.init).
  reflexivity.
Defined.

(** ** A loss-free exchange *)

Lemma process_buffer_single e d ready sent :
  SWPReceiver._process_buffer (SWPReceiver.mk e (<[e := d]> ∅) ready sent)
  = (SWPReceiver.mk (e + 1) ∅ (ready ++ [d]) sent, Ok tt).
Proof.
  set (r1 := SWPReceiver.mk e (<[e := d]> ∅) ready sent).
  assert (state_of (SWPReceiver._process_buffer r1)
          = SWPReceiver.mk (e + 1) ∅ (ready ++ [d]) sent) as Hstate.
  { rewrite process_buffer_while. subst r1. cbn [SWPReceiver._buffer
      SWPReceiver._expected_seq_num]. rewrite lookup_insert_eq.
    rewrite process_buffer_while. unfold SWPReceiver.deliver. simpl.
    rewrite delete_insert_eq, delete_empty. by rewrite lookup_empty. }
  rewrite <- Hstate. done.
Qed.

Lemma receiver_in_order_run datas e raws r :
  encodings (numbered e datas) raws ->
  SWPReceiver._buffer r = ∅ -> SWPReceiver._expected_seq_num r = e ->
  exists acks,
    encodings (acks_of (numbered e datas)) acks
    /\ SWPReceiver._recv (map Some raws) r
       = (SWPReceiver.mk (e + Z.of_nat (length datas)) ∅
            (SWPReceiver._ready_data r ++ datas) (SWPReceiver.llp_sent r ++ acks),
          Ok tt).
Proof.
  revert e raws r. induction datas as [|d datas IH]; intros e raws r Henc Hbuf He.
  - apply Forall2_nil_inv_l in Henc as ->. exists []. split; [constructor|].
    simpl. unfold ret. rewrite !app_nil_r, Z.add_0_r. destruct r. simpl in *.
    by subst.
  - cbn [numbered] in Henc. apply Forall2_cons_inv_l in Henc as (raw & raws' & Hraw & Henc & ->).
    pose proof (from_bytes_of_to_bytes _ _ Hraw) as Hfrom.
    pose proof (from_bytes_seq_range _ _ Hfrom) as Hs. simpl in Hs.
    destruct (ack_to_bytes e Hs) as (ack & Hack & _ & _).
    unfold SWPReceiver._recv in *. cbn [map for_each]. unfold bind.
    rewrite (recv_iteration_data r raw e d Hfrom).
    replace (SWPReceiver.in_window r e) with true.
    2:{ symmetry. apply in_window_spec. unfold SWPReceiver._RECV_WINDOW_SIZE. lia. }
    rewrite Hack, Hbuf, He, process_buffer_single.
    destruct (IH (e + 1) raws'
                (SWPReceiver.mk (e + 1) ∅ (SWPReceiver._ready_data r ++ [d])
                   (SWPReceiver.llp_sent r ++ [ack])) Henc eq_refl eq_refl)
      as (acks & Hacks & Hrun).
    exists (ack :: acks). split.
    + cbn [acks_of numbered map]. constructor; [done|]. exact Hacks.
    + lazy beta iota. refine (eq_trans Hrun _). simpl.
      rewrite <- !app_assoc. simpl.
      do 2 f_equal. lia.
Qed.

Lemma sender_acks_run ps raws s :
  encodings ps raws -> Forall (fun p => SWPPacket._type p = ACK) ps ->
  sender_inv s ->
  exists s',
    SWPSender._recv (map Some raws) s = (s', Ok tt)
    /\ sender_inv s'
    /\ forall k, PyDict.get (SWPSender._send_buffer s') k =
         if decide (Exists (fun p => k <= SWPPacket._seq_num p) ps) then None
         else PyDict.get (SWPSender._send_buffer s) k.
Proof.
  intros Henc. revert s. induction Henc as [|p raw ps raws Hraw Henc IH];
    intros s Hty Hinv.
  - exists s. split; [done|]. split; [done|]. intros k.
    rewrite decide_False; [done|]. by intros H%Exists_nil.
  - apply Forall_cons in Hty as [Hp Hty].
    pose proof (from_bytes_of_to_bytes _ _ Hraw) as Hfrom.
    destruct (process_ack_inv (SWPPacket._seq_num p) s Hinv)
      as (s1 & Hs1 & Hinv1 & _ & _ & Hb1 & _ & _).
    destruct (IH s1 Hty Hinv1) as (s' & Hs' & Hinv' & Hb').
    exists s'. unfold SWPSender._recv in *. cbn [map for_each]. unfold bind.
    rewrite (recv_iteration_decoded s raw p Hfrom), decide_True by done.
    rewrite Hs1, Hs'. split; [done|]. split; [done|].
    intros k. rewrite Hb', Hb1.
    destruct (decide (Exists (fun p0 => k <= SWPPacket._seq_num p0) ps)) as [H1|H1],
      (decide (k <= SWPPacket._seq_num p)) as [H2|H2],
      (decide (Exists (fun p0 => k <= SWPPacket._seq_num p0) (p :: ps))) as [H3|H3];
      try done; exfalso; rewrite Exists_cons in H3; tauto.
Qed.

Lemma dict_all_absent {V} (d : PyDict.t V) :
  (forall k, PyDict.get d k = None) -> d = [].
Proof.
  destruct d as [|[k v] d]; [done|]. intros H. specialize (H k). simpl in H.
  by rewrite decide_True in H.
Qed.

Lemma exchange_within_window (datas : list bytes) :
  (length datas <= SWPSender._SEND_WINDOW_SIZE)%nat ->
  let snd := for_each datas SWPSender._send SWPSender.init in
  let rcv := SWPReceiver._recv (map Some (SWPSender.llp_sent (state_of snd)))
               SWPReceiver.init in
  let snd' := SWPSender._recv (map Some (SWPReceiver.llp_sent (state_of rcv)))
                (state_of snd) in
  outcome snd = Ok tt /\ outcome rcv = Ok tt /\ outcome snd' = Ok tt
  /\ SWPReceiver._ready_data (state_of rcv) = datas
  /\ SWPReceiver._buffer (state_of rcv) = ∅
  /\ SWPSender._send_buffer (state_of snd') = []
  /\ SWPSender._timers (state_of snd') = []
  /\ Forall (fun T => finished T = true) (SWPSender.timer_objs (state_of snd')).
Proof.
  intros Hlen. cbv zeta. unfold SWPSender._SEND_WINDOW_SIZE in Hlen.
  destruct (sends_spec datas SWPSender.init sender_inv_init)
    as (raws & Hok & Hinv & Henc & Hsent & Hnext & Hbuf); [simpl; lia|].
  unfold SWPSender._SEND_WINDOW_SIZE in *. simpl in Henc, Hsent, Hnext, Hbuf.
  rewrite take_ge in Henc, Hnext, Hbuf by lia.
  set (s := state_of (for_each datas SWPSender._send SWPSender.init)) in *.
  destruct (receiver_in_order_run datas 0 raws SWPReceiver.init Henc eq_refl eq_refl)
    as (acks & Hacks & Hrcv).
  rewrite Hsent.
  assert (outcome (SWPReceiver._recv (map Some raws) SWPReceiver.init) = Ok tt) as Hro
    by (by rewrite Hrcv).
  assert (state_of (SWPReceiver._recv (map Some raws) SWPReceiver.init)
          = SWPReceiver.mk (0 + Z.of_nat (length datas)) ∅ datas acks) as Hrs
    by (by rewrite Hrcv).
  rewrite Hro, Hrs. cbn [SWPReceiver.llp_sent SWPReceiver._ready_data SWPReceiver._buffer].
  destruct (sender_acks_run (acks_of (numbered 0 datas)) acks s Hacks)
    as (s' & Hs' & Hinv' & Hb'); [|done|].
  { unfold acks_of. apply Forall_forall. intros p Hp.
    apply list_elem_of_In, in_map_iff in Hp as (q & <- & _). done. }
  rewrite Hs'. unfold outcome at 2. unfold state_of at 1 2 3. cbn [fst snd].
  split; [done|]. split; [done|]. split; [done|]. split; [done|]. split; [done|].
  assert (forall k, PyDict.get (SWPSender._send_buffer s') k = None) as Hnone.
  { intros k. rewrite Hb'. case_decide as Hex; [done|].
    destruct (PyDict.get (SWPSender._send_buffer s) k) as [p|] eqn:Hp; [|done].
    exfalso. apply Hex.
    assert (k ∈ PyDict.keys (SWPSender._send_buffer s)) as Hk
      by (apply get_is_Some_iff; eauto).
    rewrite Hbuf in Hk. unfold PyDict.keys in Hk. rewrite map_map in Hk. simpl in Hk.
    apply list_elem_of_In, in_map_iff in Hk as (q & Hq & Hin).
    apply Exists_exists. exists (SWPPacket.mk ACK (SWPPacket._seq_num q) []).
    split; [|simpl; lia].
    unfold acks_of. apply list_elem_of_In, in_map_iff. exists q. done. }
  assert (SWPSender._timers s' = []) as Htimers.
  { apply dict_all_absent. intros k. apply eq_None_not_Some.
    rewrite <- (inv_keys _ Hinv'). rewrite Hnone. by intros [? ?]. }
  split; [by apply dict_all_absent|]. split; [done|].
  apply Forall_forall. intros T HT.
  apply list_elem_of_lookup in HT as [tid HT].
  destruct (finished T) eqn:Hfin; [done|].
  pose proof (inv_live_timer _ Hinv' _ _ HT Hfin) as Hget.
  by rewrite Htimers in Hget.
Qed.

(** X15 (a loss-free exchange): when a fresh sender is given data of at most
    5 * 1400 bytes, and every datagram it sends reaches a fresh receiver in
    order, and every ACK of the receiver reaches the sender in order, then
    all three runs end without an exception, the receiver's delivery queue
    holds exactly the slices of the data (so their concatenation is the
    data) and its reorder buffer is empty, and the sender is left with
    nothing outstanding, no timer in [_timers] and no live timer. *)
Theorem lossless_exchange_delivers_data (data : bytes) :
  (length data <= 5 * 1400)%nat ->
  let snd := SWPSender.send data SWPSender.init in
  let rcv := SWPReceiver._recv (map Some (SWPSender.llp_sent (state_of snd)))
               SWPReceiver.init in
  let snd' := SWPSender._recv (map Some (SWPReceiver.llp_sent (state_of rcv)))
                (state_of snd) in
  outcome snd = Ok tt /\ outcome rcv = Ok tt /\ outcome snd' = Ok tt
  /\ SWPReceiver._ready_data (state_of rcv) = chunks data
  /\ concat (SWPReceiver._ready_data (state_of rcv)) = data
  /\ SWPReceiver._buffer (state_of rcv) = ∅
  /\ SWPSender._send_buffer (state_of snd') = []
  /\ SWPSender._timers (state_of snd') = []
  /\ Forall (fun T => finished T = true) (SWPSender.timer_objs (state_of snd')).
Proof.
  intros Hlen snd rcv snd'.
  assert (SWPSender.send data = for_each (chunks data) SWPSender._send) as Hsend.
  { unfold chunks, SWPSender.send. symmetry. apply for_each_map. }
  assert (concat (chunks data) = data) as Hconcat.
  { unfold chunks, SWPSender.range_step, SWPPacket.MAX_DATA_SIZE.
    rewrite map_map. apply slices_concat. apply range_step_count. }
  assert (length (chunks data) <= SWPSender._SEND_WINDOW_SIZE)%nat as Hn.
  { unfold chunks, SWPSender.range_step, SWPPacket.MAX_DATA_SIZE,
      SWPSender._SEND_WINDOW_SIZE.
    rewrite !length_map, length_seq.
    apply Nat.lt_succ_r, Nat.Div0.div_lt_upper_bound. lia. }
  subst snd' rcv snd. rewrite Hsend.
  destruct (exchange_within_window (chunks data) Hn)
    as (H1 & H2 & H3 & H4 & H5 & H6 & H7 & H8).
  split; [done|]. split; [done|]. split; [done|]. split; [done|].
  split; [by rewrite H4|]. done.
Qed.

Lemma lossless_exchange_delivers_data_witness :
  let data := replicate 3000 x61 in
  let snd := SWPSender.send data SWPSender.init in
  let rcv := SWPReceiver._recv (map Some (SWPSender.llp_sent (state_of snd)))
               SWPReceiver.init in
  let snd' := SWPSender._recv (map Some (SWPReceiver.llp_sent (state_of rcv)))
                (state_of snd) in
  outcome snd = Ok tt /\ outcome rcv = Ok tt /\ outcome snd' = Ok tt
  /\ SWPReceiver._ready_data (state_of rcv) = chunks data
  /\ concat (SWPReceiver._ready_data (state_of rcv)) = data
  /\ SWPReceiver._buffer (state_of rcv) = ∅
  /\ SWPSender._send_buffer (state_of snd') = []
  /\ SWPSender._timers (state_of snd') = []
  /\ Forall (fun T => finished T = true) (SWPSender.timer_objs (state_of snd')).
Proof.
  apply (lossless_exchange_delivers_data (replicate 3000 x61)).
  rewrite length_replicate. lia.
Defined.

(** ** Reordering and duplication within the window *)

Lemma receiver_iteration_decoded_ok r raw p :
  SWPPacket.from_bytes raw = Ok p ->
  outcome (SWPReceiver._recv_iteration (Some raw) r) = Ok tt.
Proof.
  intros Hraw. destruct p as [[] s d].
  - rewrite (recv_iteration_data r raw s d Hraw).
    destruct (SWPReceiver.in_window r s); [|done].
    pose proof (from_bytes_seq_range _ _ Hraw) as Hs. simpl in Hs.
    destruct (ack_to_bytes s Hs) as (ack & -> & _). done.
  - unfold SWPReceiver._recv_iteration, bind, lift. by rewrite Hraw.
Qed.

Lemma held_step seen r x s :
  receiver_inv seen r -> held r s ->
  held (state_of (SWPReceiver._recv_iteration x r)) s.
Proof.
  intros Hinv Hheld. destruct x as [raw|]; [|done].
  destruct (SWPPacket.from_bytes raw) as [[ty s0 d]|e] eqn:Hraw.
  2:{ by rewrite (receiver_recv_iteration_malformed r raw e Hraw). }
  destruct ty.
  2:{ unfold SWPReceiver._recv_iteration, bind, lift. by rewrite Hraw. }
  rewrite (recv_iteration_data r raw s0 d Hraw).
  destruct (SWPReceiver.in_window r s0) eqn:Hw; [|done].
  destruct (SWPPacket.to_bytes (SWPPacket.mk ACK s0 [])) as [ack|e].
  2:{ unfold held, state_of in *. simpl.
      destruct Hheld as [?|[d' Hd']]; [by left|right].
      rewrite lookup_insert. case_decide; eauto. }
  set (r1 := SWPReceiver.mk _ _ _ _).
  destruct (process_buffer_run r1) as (ds & _ & _ & Hexp & _ & Hbuf & _).
  set (r' := state_of (SWPReceiver._process_buffer r1)) in *.
  subst r1. simpl in Hexp, Hbuf.
  pose proof (rinv_count _ _ Hinv) as Hcount.
  unfold held in *. rewrite Hbuf. destruct Hheld as [Hlt|[d' Hd']]; [left; lia|].
  case_decide as Hr; [left; lia|]. right.
  rewrite lookup_insert. case_decide; eauto.
Qed.

Lemma held_accepted seen r raw s d :
  receiver_inv seen r ->
  SWPPacket.from_bytes raw = Ok (SWPPacket.mk DATA s d) ->
  s < SWPReceiver._expected_seq_num r + SWPReceiver._RECV_WINDOW_SIZE ->
  held (state_of (SWPReceiver._recv_iteration (Some raw) r)) s.
Proof.
  intros Hinv Hraw Hs.
  pose proof (from_bytes_seq_range _ _ Hraw) as Hrange. simpl in Hrange.
  rewrite (recv_iteration_data r raw s d Hraw).
  destruct (SWPReceiver.in_window r s) eqn:Hw.
  - destruct (ack_to_bytes s Hrange) as (ack & -> & _).
    set (r1 := SWPReceiver.mk _ _ _ _).
    destruct (process_buffer_run r1) as (ds & _ & _ & Hexp & _ & Hbuf & _).
    set (r' := state_of (SWPReceiver._process_buffer r1)) in *.
    subst r1. simpl in Hexp, Hbuf. apply in_window_spec in Hw.
    unfold held. rewrite Hbuf. case_decide; [left; lia|right].
    rewrite lookup_insert_eq. eauto.
  - unfold held, state_of. simpl. left.
    apply not_true_iff_false in Hw. rewrite in_window_spec in Hw. lia.
Qed.

Lemma receiver_complete_run rest seen r :
  receiver_inv seen r ->
  (forall s d, arrived seen s d -> held r s) ->
  Forall in_first_window rest ->
  let res := for_each rest SWPReceiver._recv_iteration r in
  outcome res = Ok tt
  /\ receiver_inv (seen ++ rest) (state_of res)
  /\ (forall s d, arrived (seen ++ rest) s d -> held (state_of res) s).
Proof.
  revert seen r. induction rest as [|x rest IH]; intros seen r Hinv Hheld Hok res.
  - subst res. rewrite app_nil_r. done.
  - apply Forall_cons in Hok as [(raw & p & -> & Hraw & Hp) Hok].
    pose proof (receiver_inv_step seen r (Some raw) Hinv) as Hinv1.
    pose proof (receiver_iteration_decoded_ok r raw p Hraw) as Hok1.
    assert (forall s d, arrived (seen ++ [Some raw]) s d ->
              held (state_of (SWPReceiver._recv_iteration (Some raw) r)) s) as Hheld1.
    { intros s d (raw' & Hin & Hraw'). apply elem_of_app in Hin as [Hin|Hin].
      - eapply held_step; [done|]. apply (Hheld s d). by exists raw'.
      - apply list_elem_of_singleton in Hin as [= ->].
        rewrite Hraw in Hraw'. injection Hraw' as ->.
        apply (held_accepted seen r raw s d Hinv Hraw).
        specialize (Hp eq_refl). simpl in Hp.
        pose proof (rinv_count _ _ Hinv). unfold SWPReceiver._RECV_WINDOW_SIZE in *. lia. }
    subst res. cbn [for_each]. unfold bind.
    destruct (SWPReceiver._recv_iteration (Some raw) r) as [r1 [[]|e]];
      [|discriminate].
    unfold state_of in Hinv1, Hheld1. cbn [fst] in Hinv1, Hheld1.
    rewrite (cons_middle (Some raw) seen rest), app_assoc.
    by apply IH.
Qed.

Lemma encodings_lookup ps raws raw :
  encodings ps raws -> raw ∈ raws ->
  exists i p, ps !! i = Some p /\ SWPPacket.to_bytes p = Ok raw.
Proof.
  intros Henc Hin. apply list_elem_of_lookup in Hin as [i Hi].
  destruct (Forall2_lookup_r _ _ _ _ _ Henc Hi) as (p & Hp & Hto). eauto.
Qed.

Lemma numbered_lookup e datas i p :
  numbered e datas !! i = Some p ->
  exists d, datas !! i = Some d /\ p = SWPPacket.mk DATA (e + Z.of_nat i) d.
Proof.
  revert e i. induction datas as [|d datas IH]; intros e [|i]; simpl; try done.
  - intros [= <-]. exists d. by rewrite Z.add_0_r.
  - intros Hp. apply IH in Hp as (d' & Hd' & ->). exists d'. split; [done|].
    f_equal. lia.
Qed.

Lemma numbered_lookup_Some e datas i d :
  datas !! i = Some d ->
  numbered e datas !! i = Some (SWPPacket.mk DATA (e + Z.of_nat i) d).
Proof.
  revert e i. induction datas as [|d0 datas IH]; intros e [|i]; simpl; try done.
  - intros [= <-]. by rewrite Z.add_0_r.
  - intros Hd. rewrite (IH (e + 1) i Hd). do 2 f_equal. lia.
Qed.

Lemma numbered_length e datas : length (numbered e datas) = length datas.
Proof.
  revert e. induction datas as [|d datas IH]; intros e; [done|].
  simpl. by rewrite IH.
Qed.

Lemma encodings_decode datas raws (i : nat) raw :
  encodings (numbered 0 datas) raws -> raws !! i = Some raw ->
  exists d, datas !! i = Some d
            /\ SWPPacket.to_bytes (SWPPacket.mk DATA (Z.of_nat i) d) = Ok raw
            /\ SWPPacket.from_bytes raw = Ok (SWPPacket.mk DATA (Z.of_nat i) d).
Proof.
  intros Henc Hi. destruct (Forall2_lookup_r _ _ _ _ _ Henc Hi) as (p & Hp & Hto).
  apply numbered_lookup in Hp as (d & Hd & ->). exists d. split; [done|].
  split; [done|]. by apply from_bytes_of_to_bytes in Hto.
Qed.

Lemma receiver_prefix_run
    (datas : list bytes) (raws : list bytes) (inputs : list (option bytes)) (m : nat) :
  (length datas <= 5)%nat ->
  encodings (numbered 0 datas) raws ->
  (forall x, x ∈ inputs -> exists raw, raw ∈ raws /\ x = Some raw) ->
  (m <= length datas)%nat ->
  (forall (j : nat) raw, (j < m)%nat -> raws !! j = Some raw -> Some raw ∈ inputs) ->
  (forall raw, raws !! m = Some raw -> Some raw ∉ inputs) ->
  let res := SWPReceiver._recv inputs SWPReceiver.init in
  outcome res = Ok tt
  /\ SWPReceiver._expected_seq_num (state_of res) = Z.of_nat m
  /\ SWPReceiver._ready_data (state_of res) = take m datas
  /\ (forall k, is_Some (SWPReceiver._buffer (state_of res) !! k) ->
        Z.of_nat m < k < Z.of_nat (length datas)).
Proof.
  intros Hlen Henc Hinputs Hm Hbelow Hmissing res.
  pose proof (Forall2_length _ _ _ Henc) as Hlens.
  rewrite numbered_length in Hlens.
  assert (forall s d, arrived inputs s d ->
            exists (i : nat) raw, s = Z.of_nat i /\ datas !! i = Some d
              /\ raws !! i = Some raw /\ Some raw ∈ inputs) as Harrived.
  { intros s d (raw & Hin & Hraw). pose proof Hin as Hin'.
    apply Hinputs in Hin as (raw' & Hin & [= <-]).
    apply list_elem_of_lookup in Hin as [i Hi].
    destruct (encodings_decode _ _ _ _ Henc Hi) as (d' & Hd' & _ & Hraw').
    rewrite Hraw in Hraw'. injection Hraw' as -> ->. eauto 10. }
  destruct (receiver_complete_run inputs [] SWPReceiver.init receiver_inv_init)
    as (Hok & Hinv & Hheld).
  { intros s d (raw & Hin & _). by apply not_elem_of_nil in Hin. }
  { apply Forall_forall. intros x Hx. apply Hinputs in Hx as (raw & Hin & ->).
    apply list_elem_of_lookup in Hin as [i Hi].
    destruct (encodings_decode _ _ _ _ Henc Hi) as (d & Hd & _ & Hraw).
    exists raw, (SWPPacket.mk DATA (Z.of_nat i) d). split; [done|]. split; [done|].
    intros _. simpl. apply lookup_lt_Some in Hd.
    unfold SWPReceiver._RECV_WINDOW_SIZE. lia. }
  rewrite app_nil_l in Hinv, Hheld. subst res. unfold SWPReceiver._recv.
  cbv zeta in Hok, Hinv, Hheld.
  set (r := state_of (for_each inputs SWPReceiver._recv_iteration SWPReceiver.init)) in *.
  pose proof (rinv_count _ _ Hinv) as Hcount.
  assert (SWPReceiver._expected_seq_num r = Z.of_nat m) as Hexp.
  { destruct (Z.lt_trichotomy (SWPReceiver._expected_seq_num r) (Z.of_nat m))
      as [Hlt|[Heq|Hgt]]; [exfalso|done|exfalso].
    - set (j := Z.to_nat (SWPReceiver._expected_seq_num r)).
      destruct (lookup_lt_is_Some_2 raws j) as [raw Hraw]; [lia|].
      destruct (encodings_decode _ _ _ _ Henc Hraw) as (d & Hd & _ & Hfrom).
      assert (arrived inputs (SWPReceiver._expected_seq_num r) d) as Harr.
      { exists raw. split; [apply (Hbelow j); [lia|done]|].
        rewrite Hfrom. do 2 f_equal. lia. }
      destruct (Hheld _ _ Harr) as [Hlt'|Hin]; [lia|].
      apply (rinv_keys _ _ Hinv) in Hin. lia.
    - destruct (lookup_lt_is_Some_2 (SWPReceiver._ready_data r) m) as [d Hd]; [lia|].
      apply (rinv_ready _ _ Hinv) in Hd.
      apply Harrived in Hd as (i & raw & Hi & _ & Hraw & Hin).
      apply Nat2Z.inj in Hi as <-. by apply (Hmissing raw). }
  split; [done|]. split; [done|]. split.
  - apply list_eq. intros i.
    destruct (SWPReceiver._ready_data r !! i) as [d|] eqn:Hd.
    + pose proof (lookup_lt_Some _ _ _ Hd) as Hi.
      apply (rinv_ready _ _ Hinv) in Hd.
      apply Harrived in Hd as (j & raw & Hj & Hd & _).
      apply Nat2Z.inj in Hj as ->. rewrite lookup_take_lt by lia. done.
    + symmetry. apply lookup_ge_None in Hd. apply lookup_take_ge. lia.
  - intros k Hk. pose proof (rinv_keys _ _ Hinv k Hk) as Hrange.
    destruct Hk as [d Hd]. apply (rinv_buffer _ _ Hinv) in Hd.
    apply Harrived in Hd as (i & raw & -> & Hd & _). apply lookup_lt_Some in Hd. lia.
Qed.

(** X16 (reordering and duplication within the window): let at most 5
    segments numbered from 0 be encoded, and let a fresh receiver read these
    datagrams in any order, each at least once and any number of times.
    Then its loop is still running, the cursor equals the number of
    segments, the reorder buffer is empty and the delivery queue holds
    exactly the payloads, each once, in the order of their numbers. *)
Theorem reordered_segments_are_delivered_in_order
    (datas : list bytes) (raws : list bytes) (inputs : list (option bytes)) :
  (length datas <= 5)%nat ->
  encodings (numbered 0 datas) raws ->
  (forall x, x ∈ inputs <-> exists raw, raw ∈ raws /\ x = Some raw) ->
  let res := SWPReceiver._recv inputs SWPReceiver.init in
  outcome res = Ok tt
  /\ SWPReceiver._expected_seq_num (state_of res) = Z.of_nat (length datas)
  /\ SWPReceiver._ready_data (state_of res) = datas
  /\ SWPReceiver._buffer (state_of res) = ∅.
Proof.
  intros Hlen Henc Hinputs res.
  destruct (receiver_prefix_run datas raws inputs (length datas) Hlen Henc)
    as (Hok & Hexp & Hready & Hbuf).
  - intros x Hx. by apply Hinputs.
  - done.
  - intros j raw _ Hraw. apply Hinputs. exists raw. split; [|done].
    by eapply list_elem_of_lookup_2.
  - intros raw Hraw. apply lookup_lt_Some in Hraw.
    apply Forall2_length in Henc. rewrite numbered_length in Henc. lia.
  - fold res in Hok, Hexp, Hready, Hbuf.
    split; [done|]. split; [done|]. split; [by rewrite Hready, take_ge|].
    apply map_empty. intros k. apply eq_None_not_Some. intros Hk.
    apply Hbuf in Hk. lia.
Qed.

Lemma reordered_segments_are_delivered_in_order_witness :
  let res := SWPReceiver._recv
               [Some [x44; x00; x00; x00; x02; x63]; Some [x44; x00; x00; x00; x01; x62];
                Some [x44; x00; x00; x00; x02; x63]; Some [x44; x00; x00; x00; x00; x61];
                Some [x44; x00; x00; x00; x00; x61]] SWPReceiver.init in
  outcome res = Ok tt
  /\ SWPReceiver._expected_seq_num (state_of res) = Z.of_nat (length [[x61]; [x62]; [x63]])
  /\ SWPReceiver._ready_data (state_of res) = [[x61]; [x62]; [x63]]
  /\ SWPReceiver._buffer (state_of res) = ∅.
Proof.
  apply (reordered_segments_are_delivered_in_order [[x61]; [x62]; [x63]]
           [[x44; x00; x00; x00; x00; x61]; [x44; x00; x00; x00; x01; x62];
            [x44; x00; x00; x00; x02; x63]]).
  - simpl. lia.
  - repeat constructor.
  - intros x. rewrite !elem_of_cons, elem_of_nil. split.
    + intros [->|[->|[->|[->|[->|[]]]]]]; eexists; (split; [|reflexivity]);
        rewrite !elem_of_cons; tauto.
    + intros (raw & Hin & ->). rewrite !elem_of_cons, elem_of_nil in Hin.
      destruct Hin as [->|[->|[->|[]]]]; tauto.
Defined.

(** ** A lost datagram and its retransmission *)










(** ** The sequence counter *)

(** X18 (sequence numbers): where the invariant holds and the counter fits
    32 bits, a submission made while the window has room takes the value of
    the counter as its sequence number and moves the counter by exactly one;
    a submission dropped on a full window, a retransmission, a timer expiry
    and a turn of the receive loop leave the counter as it is.  The keys
    outstanding afterwards are all below the counter. *)
Theorem counter_moves_only_on_transmitted_submission (s : SWPSender.t) (o : sender_op) :
  sender_inv s -> SWPSender._next_seq_num s < 2 ^ 32 ->
  let s' := state_of (run_op o s) in
  SWPSender._next_seq_num s' =
    match o with
    | OpSend _ =>
        if decide (SWPSender._SEND_WINDOW_SIZE
                   <= PyDict.len (SWPSender._send_buffer s))%nat
        then SWPSender._next_seq_num s
        else SWPSender._next_seq_num s + 1
    | _ => SWPSender._next_seq_num s
    end
  /\ Forall (fun k => 0 <= k < SWPSender._next_seq_num s')
       (PyDict.keys (SWPSender._send_buffer s')).
Proof.
  intros Hinv Hn s'. split.
  - subst s'. destruct o as [data|k|tid|raw]; simpl.
    + case_decide.
      * by rewrite send_full.
      * rewrite send_room by lia. unfold state_of.
        by destruct (SWPPacket.to_bytes _).
    + destruct (PyDict.get (SWPSender._send_buffer s) k) as [p|] eqn:Hp.
      2:{ by rewrite retransmit_absent. }
      pose proof (inv_packet _ Hinv _ _ Hp) as [Hseq Hrange].
      pose proof (inv_next _ Hinv) as Hnext.
      destruct (to_bytes_Ok p) as [raw Hraw]; [lia|].
      destruct (proj1 (inv_keys _ Hinv k)) as [old Hold]; [by rewrite Hp; eauto|].
      by rewrite (retransmit_present s k p raw old).
    + destruct (SWPSender.timer_objs s !! tid) as [T|] eqn:HT.
      2:{ unfold SWPSender.timer_run, bind, get_state. simpl. by rewrite HT. }
      destruct (finished T) eqn:Hfin.
      { by rewrite (timer_run_finished s tid T). }
      rewrite (timer_run_live s tid T) by done.
      pose proof (inv_live_timer _ Hinv _ _ HT Hfin) as Hold.
      destruct (proj2 (inv_keys _ Hinv (timer_arg T))) as [p Hp]; [by rewrite Hold; eauto|].
      pose proof (inv_packet _ Hinv _ _ Hp) as [Hseq Hrange].
      pose proof (inv_next _ Hinv) as Hnext.
      destruct (to_bytes_Ok p) as [raw Hraw]; [lia|].
      by rewrite (retransmit_present s _ p raw tid).
    + destruct raw as [raw|]; [|done].
      destruct (SWPPacket.from_bytes raw) as [p|e] eqn:Hraw.
      2:{ by rewrite (recv_iteration_malformed s raw e Hraw). }
      rewrite (recv_iteration_decoded s raw p Hraw). case_decide; [|done].
      destruct (process_ack_inv (SWPPacket._seq_num p) s Hinv)
        as (s1 & Hs1 & _ & Hn1 & _).
      by rewrite Hs1.
  - assert (sender_inv s') as Hinv'.
    { subst s'. destruct o as [data|k|tid|raw]; simpl.
      - by apply sender_inv_send.
      - by apply sender_inv_retransmit.
      - by apply sender_inv_timer_run.
      - by apply sender_inv_recv_iteration. }
    apply Forall_forall. intros k [p Hp]%get_is_Some_iff.
    by apply (inv_packet _ Hinv') in Hp as [_ ?].
Qed.

Lemma counter_moves_only_on_transmitted_submission_witness :
  let s' := state_of (run_op (OpSend [x64]) sender3) in
  SWPSender._next_seq_num s' =
    (if decide (SWPSender._SEND_WINDOW_SIZE
                <= PyDict.len (SWPSender._send_buffer sender3))%nat
     then SWPSender._next_seq_num sender3
     else SWPSender._next_seq_num sender3 + 1)
  /\ Forall (fun k => 0 <= k < SWPSender._next_seq_num s')
       (PyDict.keys (SWPSender._send_buffer s')).
Proof.
  apply (counter_moves_only_on_transmitted_submission sender3 (OpSend [x64])).
  - exact sender_inv_sender3.
  - vm_compute. reflexivity.
Defined.

(** ** Nothing held is lost *)

Lemma held_run more seen r s :
  receiver_inv seen r -> held r s ->
  held (state_of (for_each more SWPReceiver._recv_iteration r)) s.
Proof.
  revert seen r. induction more as [|x more IH]; intros seen r Hinv Hheld; [done|].
  pose proof (receiver_inv_step seen r x Hinv) as Hinv1.
  pose proof (held_step seen r x s Hinv Hheld) as Hheld1.
  cbn [for_each]. unfold bind.
  destruct (SWPReceiver._recv_iteration x r) as [r1 [[]|e]]; [|done].
  by apply (IH (seen ++ [x]) r1).
Qed.

(** X19 (the receiver loses nothing it holds): once a segment is delivered or
    sits in the reorder buffer of a receiver, it stays delivered or buffered
    whatever the transport hands to the receive loop afterwards: no later
    datagram, duplicate, malformed or out of window, evicts it. *)
Theorem receiver_keeps_what_it_holds (inputs more : list (option bytes)) (s : Z) :
  let r := state_of (SWPReceiver._recv inputs SWPReceiver.init) in
  held r s -> held (state_of (SWPReceiver._recv more r)) s.
Proof.
  intros r Hheld. apply (held_run more inputs r s); [|done].
  apply receiver_inv_run.
Qed.

Lemma receiver_keeps_what_it_holds_witness :
  let r := state_of (SWPReceiver._recv [Some [x44; x00; x00; x00; x02; x63]]
                       SWPReceiver.init) in
  held (state_of (SWPReceiver._recv
                    [Some [x44; x00; x00; x00; x09; x7a]; Some [x00];
                     Some [x44; x00; x00; x00; x00; x61]] r)) 2.
Proof.
  apply (receiver_keeps_what_it_holds [Some [x44; x00; x00; x00; x02; x63]]
           [Some [x44; x00; x00; x00; x09; x7a]; Some [x00];
            Some [x44; x00; x00; x00; x00; x61]] 2).
  right. vm_compute. eauto.
Defined.
